(** * Cloud_Sage: the download/upload pipeline of the Telegram video bot

    A shallow embedding of [src/main.py] (class [VideoDownloaderBot]):
    the two extraction adapters [download_youtube_video] and
    [download_instagram_content], the quality table of [button_callback],
    and the two orchestrators [process_youtube_download] and
    [process_instagram_download].

    The bot talks to three outside parties: yt-dlp, the Telegram API and
    the local disk.  Their answers are inputs of the model (a record of
    oracles); what the bot does to them is written to a log of events, so
    that "how many upload calls" or "was the file removed" are questions
    about that log.

    What the model takes for granted:
    - the status calls ([edit_message_text], [reply_text], [send_action],
      [query.answer]) and [asyncio.sleep] do not raise: the theorems are
      about the runs in which Telegram accepts them.  In the source they
      are awaited calls that can fail, some of them outside any [try],
      so where a result below is a normal return, it is one for those
      runs only;
    - the probe [extract_info(url, download=False)] does not touch the
      disk, and returns a dict or raises;
    - the adapters contain no [await]: once started they run to their
      end before the event loop can act on the deadline of
      [asyncio.wait_for], which therefore returns their result however
      long they took;
    - log lines and the [filename] argument of [reply_document] are left
      out. *)

From Stdlib Require Import ZArith QArith Ascii String List Bool Lia.
From stdpp Require Import base option list strings gmap pretty.

Local Open Scope Z_scope.

(** ** Python strings

    A Python string is kept as its UTF-8 bytes; the source's literals
    are ASCII except for the emoji of the status texts.  A character is
    a lead byte with the continuation bytes that follow it, and [len]
    and the slice [s[:n]] count characters.  [lower] maps the ASCII
    letters only, which is what the keyword tests of the source, all on
    ASCII keywords, depend on. *)

Module Py.

(** [c.lower()] on one character (ASCII letters only). *)
Definition lower_ascii (c : ascii) : ascii :=
  let n := nat_of_ascii c in
  if (Nat.leb 65 n && Nat.leb n 90)%bool then ascii_of_nat (n + 32) else c.

(** [s.lower()] *)
Fixpoint lower (s : string) : string :=
  match s with
  | EmptyString => EmptyString
  | String c r => String (lower_ascii c) (lower r)
  end.

(** [s.startswith(p)] *)
Fixpoint startswith (p s : string) : bool :=
  match p, s with
  | EmptyString, _ => true
  | String a p', String b s' => if Ascii.eqb a b then startswith p' s' else false
  | String _ _, EmptyString => false
  end.

(** [p in s] for strings: [p] occurs in [s] as a substring. *)
Fixpoint contains (p s : string) : bool :=
  if startswith p s then true
  else match s with
       | EmptyString => false
       | String _ s' => contains p s'
       end.

(** [s.endswith(p)] *)
Fixpoint endswith (p s : string) : bool :=
  if String.eqb p s then true
  else match s with
       | EmptyString => false
       | String _ s' => endswith p s'
       end.

(** A byte of the form 10xxxxxx continues the character before it. *)
Definition is_continuation (c : ascii) : bool :=
  let n := nat_of_ascii c in (Nat.leb 128 n && Nat.ltb n 192)%bool.

(** [len(s)]: the number of characters. *)
Fixpoint len (s : string) : nat :=
  match s with
  | EmptyString => O
  | String c r => if is_continuation c then len r else S (len r)
  end.

(** [s[:n]]: the first [n] characters, each with all its bytes. *)
Fixpoint take (n : nat) (s : string) : string :=
  match s with
  | EmptyString => EmptyString
  | String c r =>
      if is_continuation c then String c (take n r)
      else match n with
           | O => EmptyString
           | S n' => String c (take n' r)
           end
  end.

(** [s.replace(a, b)] for one-character [a] and [b]. *)
Fixpoint replace (a b : ascii) (s : string) : string :=
  match s with
  | EmptyString => EmptyString
  | String c r => String (if Ascii.eqb c a then b else c) (replace a b r)
  end.

(** [s.split(sep)] for a one-character separator: the pieces between the
    separators, never an empty list. *)
Fixpoint split (sep : ascii) (s : string) : list string :=
  match s with
  | EmptyString => [EmptyString]
  | String c r =>
      if Ascii.eqb c sep then EmptyString :: split sep r
      else match split sep r with
           | piece :: rest => String c piece :: rest
           | [] => [String c EmptyString]
           end
  end.

(** [s.split(sep, maxsplit)]: at most [maxsplit] cuts, the rest of the
    string is the last piece. *)
Fixpoint splitn (sep : ascii) (maxsplit : nat) (s : string) : list string :=
  match maxsplit with
  | O => [s]
  | S m =>
      match s with
      | EmptyString => [EmptyString]
      | String c r =>
          if Ascii.eqb c sep then EmptyString :: splitn sep m r
          else match splitn sep (S m) r with
               | piece :: rest => String c piece :: rest
               | [] => [String c EmptyString]
               end
      end
  end.

(** [any(k in s for k in keywords)] *)
Definition any_in (keywords : list string) (s : string) : bool :=
  existsb (fun k => contains k s) keywords.

End Py.

(** ** Exceptions, events and the effect monad *)

(** The exceptions the modelled code can see.  [Error msg] stands for any
    other [Exception] raised by yt-dlp or by the Telegram client, [msg]
    being its [str(e)]. *)
Inductive exn :=
| TimeoutError                 (* asyncio.TimeoutError *)
| KeyError (key : string)      (* dict[key] on a missing key *)
| IndexError                   (* list[i] out of range *)
| OSError (msg : string)       (* os.path.getsize, open, os.remove on a missing file *)
| Error (msg : string).

(** [str(e)] *)
Definition str (e : exn) : string :=
  match e with
  | TimeoutError => ""
  | KeyError key => "'" +:+ key +:+ "'"
  | IndexError => "list index out of range"
  | OSError msg => msg
  | Error msg => msg
  end.

(** The options handed to [yt_dlp.YoutubeDL]; the constant entries
    ([noplaylist], [writeinfojson], [merge_output_format], ...) are left
    out. *)
Record ydl_opts := {
  format : string;
  outtmpl : string;
  cookiefile : option string;
  extract_audio : bool          (* the FFmpegExtractAudio postprocessor *)
}.

(** The three Telegram delivery calls. *)
Inductive delivery := reply_video | reply_audio | reply_document.

(** What the bot does to the outside world, in the order it does it.
    Log lines ([logger.info] and the like) are not events. *)
Inductive event :=
| Answer                                        (* query.answer() *)
| SendAction                                    (* chat.send_action(UPLOAD_VIDEO) *)
| Status (text : string)                        (* edit_message_text / reply_text *)
| Upload (how : delivery) (path caption : string)
| Sleep (seconds : Z)                           (* asyncio.sleep *)
| WaitFor (timeout : Z)                         (* asyncio.wait_for(..., timeout) *)
| ExtractInfo (opts : ydl_opts) (url : string)  (* ydl.extract_info(url, download=False) *)
| YdlDownload (opts : ydl_opts) (url : string)  (* ydl.download([url]) *)
| Remove (path : string).                       (* os.remove *)

(** The local disk: full path and byte size of every file, in the order
    [os.listdir] reports them. *)
Definition disk := list (string * Z).

Record world := { fs : disk; log : list event }.

(** A step either yields a value, or executes Python's [return] (leaving
    the enclosing function), or raises. *)
Inductive res (A : Type) :=
| Val (a : A)
| Return
| Raise (e : exn).
Arguments Val {A} a.
Arguments Return {A}.
Arguments Raise {A} e.

Definition M (A : Type) : Type := world -> res A * world.

Definition ret {A} (a : A) : M A := fun w => (Val a, w).

Definition bind {A B} (m : M A) (k : A -> M B) : M B :=
  fun w =>
    match m w with
    | (Val a, w') => k a w'
    | (Return, w') => (Return, w')
    | (Raise e, w') => (Raise e, w')
    end.

Notation "'let*' x ':=' m 'in' k" := (bind m (fun x => k))
  (at level 10, x name, m at level 100, k at level 200).
Notation "m '>>' k" := (bind m (fun _ => k))
  (at level 100, k at level 200, right associativity).

(** Python's [return] (of [None]) and [raise]. *)
Definition return_ {A} : M A := fun w => (Return, w).
Definition raise {A} (e : exn) : M A := fun w => (Raise e, w).

(** [try: body except Exception as e: handler(e)] *)
Definition try_except {A} (body : M A) (handler : exn -> M A) : M A :=
  fun w =>
    match body w with
    | (Raise e, w') => handler e w'
    | r => r
    end.

(** The call of an [async def] whose body is [body]: a [return] inside
    ends the call, which then yields [None]. *)
Definition call (body : M unit) : M unit :=
  fun w =>
    match body w with
    | (Return, w') => (Val tt, w')
    | r => r
    end.

Definition emit (e : event) : M unit :=
  fun w => (Val tt, {| fs := fs w; log := log w ++ [e] |}).

(** [query.edit_message_text] and [update.message.reply_text]: status
    texts shown to the user.  These calls, [send_action], [query.answer]
    and [asyncio.sleep] are taken to succeed; a run in which one of them
    raises is outside the model. *)
Definition status (text : string) : M unit := emit (Status text).

(** ** The local disk *)

Fixpoint getsize_in (path : string) (d : disk) : option Z :=
  match d with
  | [] => None
  | (p, n) :: d' => if String.eqb p path then Some n else getsize_in path d'
  end.

Definition exists_in (path : string) (d : disk) : bool :=
  match getsize_in path d with Some _ => true | None => false end.

Fixpoint strip_prefix (p s : string) : option string :=
  match p, s with
  | EmptyString, _ => Some s
  | String a p', String b s' => if Ascii.eqb a b then strip_prefix p' s' else None
  | String _ _, EmptyString => None
  end.

(** [os.path.join(d, f)] *)
Definition path_join (d f : string) : string := d +:+ "/" +:+ f.

(** [os.listdir(dir)]: the names of the entries directly under [dir]. *)
Definition listdir_in (dir : string) (d : disk) : list string :=
  omap (fun e : string * Z =>
          match strip_prefix (dir +:+ "/") (fst e) with
          | Some name => if Py.contains "/" name then None else Some name
          | None => None
          end) d.

Definition no_such_file (path : string) : exn :=
  OSError ("[Errno 2] No such file or directory: '" +:+ path +:+ "'").

(** [os.path.getsize(path)] *)
Definition getsize (path : string) : M Z :=
  fun w =>
    match getsize_in path (fs w) with
    | Some n => (Val n, w)
    | None => (Raise (no_such_file path), w)
    end.

(** [os.remove(path)] *)
Definition remove (path : string) : M unit :=
  fun w =>
    let w' := {| fs := fs w; log := log w ++ [Remove path] |} in
    if exists_in path (fs w)
    then (Val tt, {| fs := List.filter (fun e => negb (String.eqb (fst e) path)) (fs w);
                     log := log w' |})
    else (Raise (no_such_file path), w').

Definition read_disk : M disk := fun w => (Val (fs w), w).

(** ** The outside parties *)

(** A value of the probe's [info] dict as the adapter reads it: [None]
    or a number of seconds (yt-dlp reports an int or a float; both are
    read as the rational they denote). *)
Inductive pyval := PyNone | Num (q : Q).

(** The keys of [info] the adapters read; [None] is a missing key. *)
Record info := {
  info_title : option string;
  info_id : option string;
  info_duration : option pyval
}.

(** The answer of an outside call: a value, or an exception with the
    given [str(e)]. *)
Inductive answer (A : Type) :=
| Ok (a : A)
| Fails (msg : string).
Arguments Ok {A} a.
Arguments Fails {A} msg.

(** One bot instance and the parties it talks to while it serves one
    request. *)
Record env := {
  temp_dir : string;                  (* self.temp_dir *)
  youtube_cookies : string;           (* script_dir / "youtube.com_cookies.txt" *)
  instagram_cookies : string;
  youtube_cookies_exists : bool;      (* self.youtube_cookies.exists() *)
  instagram_cookies_exists : bool;
  (* ydl.extract_info(url, download=False): reads nothing from and
     writes nothing to the disk *)
  extract_info : ydl_opts -> string -> answer info;
  (* ydl.download([url]): the disk it leaves, and whether it raised *)
  ydl_download : ydl_opts -> string -> disk -> disk * answer unit;
  (* os.path.getctime(path) > time.time() - 30 *)
  created_recently : string -> bool;
  (* the answer of Telegram to the n-th delivery call of the request,
     counted from 0 *)
  send : nat -> answer unit
}.

Definition is_upload (e : event) : bool :=
  match e with Upload _ _ _ => true | _ => false end.

(** Number of delivery calls made so far. *)
Definition uploads (l : list event) : nat := length (List.filter is_upload l).

Section Bot.

Context (self : env).

(** [with open(path, 'rb') as file: await query.message.reply_*(file, ...)] *)
Definition upload (how : delivery) (path caption : string) : M unit :=
  fun w =>
    if exists_in path (fs w) then
      let w' := {| fs := fs w; log := log w ++ [Upload how path caption] |} in
      match send self (uploads (log w)) with
      | Ok _ => (Val tt, w')
      | Fails msg => (Raise (Error msg), w')
      end
    else (Raise (no_such_file path), w).

(** [await asyncio.wait_for(job, timeout=timeout)] for a [job] that
    never suspends, as both adapters are: the job runs to its end in one
    step of the event loop, the timer of the deadline gets no chance to
    cancel it, and [wait_for] hands back what the job returned or
    raised. *)
Definition wait_for {A} (job : M A) (timeout : Z) : M A :=
  emit (WaitFor timeout) >>
  job.

Definition ydl_extract_info (opts : ydl_opts) (url : string) : M info :=
  emit (ExtractInfo opts url) >>
  match extract_info self opts url with
  | Ok i => ret i
  | Fails msg => raise (Error msg)
  end.

Definition ydl_download_ (opts : ydl_opts) (url : string) : M unit :=
  fun w =>
    let (d, r) := ydl_download self opts url (fs w) in
    let w' := {| fs := d; log := log w ++ [YdlDownload opts url] |} in
    match r with
    | Ok _ => (Val tt, w')
    | Fails msg => (Raise (Error msg), w')
    end.

(** ** Extraction adapters *)

Inductive media := video | audio.

(** The dict an adapter returns: [{'error': msg}] or
    [{'success': True, 'file_path': .., 'title': .., 'type': ..}]. *)
Inductive result :=
| error (msg : string)
| success (file_path title : string) (type : media).

(** [quality.split('+')[0].replace('/', '_')[:10]] *)
Definition quality_suffix (quality : string) : string :=
  Py.take 10 (Py.replace "/" "_" (List.hd EmptyString (Py.split "+" quality))).

(** [duration and duration > 600] *)
Definition too_long (duration : pyval) : bool :=
  match duration with
  | PyNone => false
  | Num q => negb (Qeq_bool q 0%Q) && negb (Qle_bool q 600%Q)
  end.

Definition youtube_auth_keywords : list string :=
  ["login"; "sign in"; "private"; "unavailable"; "members only"; "age-restricted"].

Definition instagram_auth_keywords : list string :=
  ["login"; "sign in"; "private"; "unavailable"].

(** The [ydl_opts] dict of [download_youtube_video]. *)
Definition youtube_opts (quality : string) : ydl_opts :=
  let filename_template := "%(id)s_" +:+ quality_suffix quality +:+ ".%(ext)s" in
  let opts :=
    {| format := quality;
       outtmpl := path_join (temp_dir self) filename_template;
       cookiefile := if youtube_cookies_exists self
                     then Some (youtube_cookies self) else None;
       extract_audio := false |} in
  if String.eqb quality "bestaudio"
  then {| format := "bestaudio/best"; outtmpl := outtmpl opts;
          cookiefile := cookiefile opts; extract_audio := true |}
  else opts.

(** The [ydl_opts] dict of [download_instagram_content]. *)
Definition instagram_opts : ydl_opts :=
  {| format := "best[ext=mp4]/best";
     outtmpl := path_join (temp_dir self) "%(id)s.%(ext)s";
     cookiefile := if instagram_cookies_exists self
                   then Some (instagram_cookies self) else None;
     extract_audio := false |}.

Definition download_youtube_video (url quality : string) : M result :=
  try_except
    (let opts := youtube_opts quality in
     let* info := ydl_extract_info opts url in
     let title := default "Unknown" (info_title info) in
     let video_id := default "unknown" (info_id info) in
     let duration := default (Num 0%Q) (info_duration info) in
     if too_long duration
     then ret (error "Video is too long (max 10 minutes allowed)")
     else
       ydl_download_ opts url >>
       let type := if String.eqb quality "bestaudio" then audio else video in
       let expected_extensions :=
         if Py.contains "bestaudio" quality
         then [".mp4"; ".webm"; ".mkv"; ".mp3"] else [".mp4"; ".webm"; ".mkv"] in
       let* d := read_disk in
       match List.find (fun p => exists_in p d)
               (List.map (fun ext => path_join (temp_dir self)
                                       (video_id +:+ "_" +:+ quality_suffix quality +:+ ext))
                         expected_extensions) with
       | Some file_path => ret (success file_path title type)
       | None =>
           match List.find (fun file => Py.contains video_id file
                                        && existsb (fun ext => Py.endswith ext file)
                                                   expected_extensions)
                   (listdir_in (temp_dir self) d) with
           | Some file => ret (success (path_join (temp_dir self) file) title type)
           | None => ret (error "Download completed but file not found")
           end
       end)
    (fun e =>
       let error_msg := Py.lower (str e) in
       if Py.any_in youtube_auth_keywords error_msg then
         if youtube_cookies_exists self
         then ret (error "Video requires authentication. Please update your YouTube cookies file.")
         else ret (error "Video requires authentication. Please add your YouTube cookies file.")
       else if Py.contains "requested format not available" error_msg
       then ret (error "Requested video quality not available. Try a different quality option.")
       else ret (error ("Download failed: " +:+ str e))).

Definition download_instagram_content (url : string) : M result :=
  try_except
    (let opts := instagram_opts in
     let* info := ydl_extract_info opts url in
     let title := default "Instagram_Video" (info_title info) in
     let video_id := default "instagram_video" (info_id info) in
     ydl_download_ opts url >>
     let expected_extensions := [".mp4"; ".webm"; ".mkv"] in
     let* d := read_disk in
     match List.find (fun p => exists_in p d)
             (List.map (fun ext => path_join (temp_dir self) (video_id +:+ ext))
                       expected_extensions) with
     | Some file_path => ret (success file_path title video)
     | None =>
         match List.find (fun file =>
                            existsb (fun ext => Py.endswith ext file) expected_extensions
                            && created_recently self (path_join (temp_dir self) file))
                 (listdir_in (temp_dir self) d) with
         | Some file => ret (success (path_join (temp_dir self) file) title video)
         | None => ret (error "Download completed but video file not found")
         end
     end)
    (fun e =>
       let error_msg := Py.lower (str e) in
       if Py.any_in instagram_auth_keywords error_msg then
         if instagram_cookies_exists self
         then ret (error "Content requires authentication. Please update your Instagram cookies file.")
         else ret (error "Content requires authentication. Please add your Instagram cookies file.")
       else ret (error ("Download failed: " +:+ str e))).

(** ** Quality resolver and status texts *)

(** The [quality_map] dict of [button_callback]. *)
Definition quality_map : gmap string string :=
  {[ "best" := "136+140/best[height<=720]/18";
     "1080" := "137+140/best[height<=1080]";
     "720" := "136+140/best[height<=720]/134+140";
     "480" := "135+140/best[height<=480]/134+140";
     "audio" := "bestaudio[ext=m4a]/bestaudio" ]}.

(** The [expected_sizes] dict of [process_youtube_download], in MB. *)
Definition expected_sizes : gmap string Z :=
  {[ "480" := 30; "720" := 50; "best" := 50; "1080" := 150 ]}.

(** [d[key]] *)
Definition getitem {V} (d : gmap string V) (key : string) : M V :=
  match d !! key with
  | Some v => ret v
  | None => raise (KeyError key)
  end.

(** [l[i]] *)
Definition index {A} (l : list A) (i : nat) : M A :=
  match l !! i with
  | Some a => ret a
  | None => raise IndexError
  end.

(** Nearest integer to [n / d], ties to even ([d] positive). *)
Definition round_half_even (n d : Z) : Z :=
  let q := n / d in
  let r := n mod d in
  if 2 * r <? d then q
  else if d <? 2 * r then q + 1
  else if Z.even q then q else q + 1.

(** [f"{file_size / (1024*1024):.1f}"] for a size from 0 up to, but not
    including, 2^53 bytes (8 PiB): the size is then a binary64 number,
    the division by a power of two is exact, and the format rounds the
    exact quotient to one decimal, ties to even. *)
Definition mb (file_size : Z) : string :=
  let tenths := round_half_even (file_size * 10) (1024 * 1024) in
  pretty (tenths / 10) +:+ "." +:+ pretty (tenths mod 10).

(** ["timeout" in error_msg.lower() or "timed out" in error_msg.lower()] *)
Definition is_timeout (error_msg : string) : bool :=
  Py.contains "timeout" (Py.lower error_msg)
  || Py.contains "timed out" (Py.lower error_msg).

Definition msg_downloading : string :=
  "📥 Downloading video... This may take a few minutes for large files.".
Definition msg_error (e : string) : string := "❌ Error: " +:+ e.
Definition msg_downloaded (file_size : Z) (quality : string) : string :=
  "✅ Downloaded! File size: " +:+ mb file_size +:+ " MB. Format used: "
  +:+ quality +:+ ". Preparing upload...".
Definition msg_larger_than_expected (file_size expected_mb : Z) : string :=
  "⚠️ Warning: File is larger than expected (" +:+ mb file_size +:+ " MB vs ~"
  +:+ pretty expected_mb
  +:+ " MB). Quality selection might have failed. Proceeding with upload...".
Definition msg_too_large : string :=
  "❌ File is too large (>2GB). This video cannot be sent via Telegram.".
Definition msg_large_uploading (file_size : Z) : string :=
  "📤 File is large (" +:+ mb file_size
  +:+ " MB). Uploading as document... Please wait, this may take several minutes.".
Definition msg_large_completed : string :=
  "✅ Upload completed! Large file sent as document.".
Definition msg_large_unknown (file_size : Z) : string :=
  "📤 Large file upload is taking longer than expected (" +:+ mb file_size
  +:+ " MB). The file may still be uploading in the background. Please wait...".
Definition msg_large_failed (error_msg : string) (file_size : Z) : string :=
  "❌ Upload failed: " +:+ error_msg +:+ ". File: " +:+ mb file_size
  +:+ " MB. Please try a lower quality.".
Definition msg_uploading (file_size : Z) : string :=
  "📤 Uploading to Telegram... (" +:+ mb file_size +:+ " MB)".
Definition msg_retrying (attempt : nat) (file_size : Z) : string :=
  "📤 Upload attempt " +:+ pretty (attempt + 1)%nat +:+ " timed out. Retrying... ("
  +:+ mb file_size +:+ " MB)".
Definition msg_unknown (file_size : Z) : string :=
  "📤 Upload is taking longer than expected (" +:+ mb file_size
  +:+ " MB). The file may still be uploading in the background. Please wait a moment...".
Definition msg_failed (error_msg : string) (file_size : Z) : string :=
  "❌ Upload failed: " +:+ error_msg +:+ ". File: " +:+ mb file_size +:+ " MB.".
Definition msg_completed : string := "✅ Download completed!".
Definition msg_failed_after (max_retries : nat) (file_size : Z) : string :=
  "❌ Upload failed after " +:+ pretty max_retries +:+ " attempts. File: "
  +:+ mb file_size +:+ " MB. Please try again or use a lower quality.".
Definition msg_download_timeout : string :=
  "❌ Download timed out after 5 minutes. The video is likely too large or connection is slow. Please try a lower quality (720p or 480p).".
Definition msg_processing_error (e : string) : string :=
  "❌ Error processing download: " +:+ e.
Definition msg_instagram_too_large : string := "❌ File is too large (>50MB).".
Definition msg_instagram_timeout : string := "❌ Download timed out. Please try again.".

(** ** Transfer orchestrators *)

Definition max_retries : nat := 3.

(** How one round of the retry loop ends (unless it [return]s). *)
Inductive loop_exit := Break | Continue.

(** The loop [for attempt in range(max_retries)] of the small-file path,
    run over the attempts still to come; yields [upload_success]. *)
Fixpoint upload_attempts (file_path title : string) (type : media)
    (file_size : Z) (attempts : list nat) : M bool :=
  match attempts with
  | [] => ret false
  | attempt :: rest =>
      let* exit :=
        try_except
          (match type with
           | audio => upload reply_audio file_path ("🎵 " +:+ title)
           | video => upload reply_video file_path ("🎥 " +:+ title)
           end >>
           ret Break)
          (fun upload_error =>
             let error_msg := str upload_error in
             if is_timeout error_msg && (attempt <? max_retries - 1)%nat then
               status (msg_retrying attempt file_size) >>
               emit (Sleep 2) >>
               ret Continue
             else if is_timeout error_msg then
               status (msg_unknown file_size) >>
               emit (Sleep 10) >>
               return_
             else
               status (msg_failed error_msg file_size) >>
               return_) in
      match exit with
      | Break => ret true
      | Continue => upload_attempts file_path title type file_size rest
      end
  end.

(** [query_data] is [query.data], the callback data of the pressed
    button. *)
Definition process_youtube_download (query_data url quality : string) : M unit :=
  call
    (try_except
       (emit SendAction >>
        status msg_downloading >>
        let* result := wait_for (download_youtube_video url quality) 300 in
        match result with
        | error e => status (msg_error e) >> return_
        | success file_path title type =>
            let* file_size := getsize file_path in
            status (msg_downloaded file_size quality) >>
            let quality_key :=
              if Py.contains "_" query_data
              then default "best" (Py.split "_" query_data !! 1%nat)
              else "best" in
            let expected_mb := default 50 (expected_sizes !! quality_key) in
            (* file_size > expected_mb * 1024 * 1024 * 1.5 *)
            (if 3 * (expected_mb * 1024 * 1024) <? 2 * file_size
             then status (msg_larger_than_expected file_size expected_mb)
             else ret tt) >>
            let max_size := 2 * 1024 * 1024 * 1024 in
            (if max_size <? file_size then
               status msg_too_large >> return_
             else if 50 * 1024 * 1024 <? file_size then
               status (msg_large_uploading file_size) >>
               try_except
                 (match type with
                  | audio =>
                      upload reply_audio file_path
                        ("🎵 " +:+ title +:+ " (" +:+ mb file_size +:+ " MB)")
                  | video =>
                      upload reply_document file_path
                        ("🎥 " +:+ title +:+ " (" +:+ mb file_size +:+ " MB)")
                  end >>
                  status msg_large_completed)
                 (fun upload_error =>
                    let error_msg := str upload_error in
                    if is_timeout error_msg
                    then status (msg_large_unknown file_size)
                    else status (msg_large_failed error_msg file_size) >> return_)
             else
               status (msg_uploading file_size) >>
               let* upload_success :=
                 upload_attempts file_path title type file_size (seq 0 max_retries) in
               if upload_success
               then status msg_completed
               else status (msg_failed_after max_retries file_size)) >>
            try_except (remove file_path) (fun _ => ret tt)
        end)
       (fun e =>
          match e with
          | TimeoutError => status msg_download_timeout
          | _ => status (msg_processing_error (str e))
          end)).

Definition process_instagram_download (url : string) : M unit :=
  call
    (try_except
       (emit SendAction >>
        let* result := wait_for (download_instagram_content url) 120 in
        match result with
        | error e => status (msg_error e) >> return_
        | success file_path title _ =>
            let* file_size := getsize file_path in
            (if 50 * 1024 * 1024 <? file_size
             then status msg_instagram_too_large >> return_
             else ret tt) >>
            try_except
              (upload reply_video file_path ("📱 " +:+ title) >>
               status msg_completed)
              (fun upload_error =>
                 status (msg_failed (str upload_error) file_size) >>
                 return_) >>
            try_except (remove file_path) (fun _ => ret tt)
        end)
       (fun e =>
          match e with
          | TimeoutError => status msg_instagram_timeout
          | _ => status (msg_processing_error (str e))
          end)).

Definition button_callback (data : string) : M unit :=
  call
    (emit Answer >>
     if Py.startswith "yt_" data then
       let* parsed :=
         try_except
           (let parts := Py.splitn "_" 2 data in
            let* quality := index parts 1 in
            let* url := index parts 2 in
            ret (quality, url))
           (fun e =>
              match e with
              | IndexError => status "❌ Error: Invalid button data" >> return_
              | _ => raise e
              end) in
       status "📥 Starting YouTube download..." >>
       let* format := getitem quality_map (fst parsed) in
       process_youtube_download data (snd parsed) format
     else ret tt).

End Bot.

(** ** Incoming messages *)

Section Handlers.

Context (self : env).

(** [urllib.parse.urlparse(url).netloc], from the standard library: the
    host part of the URL, or a [ValueError] with the given text. *)
Context (netloc : string -> answer string).

Definition youtube_hosts : list string :=
  ["www.youtube.com"; "youtube.com"; "youtu.be"; "m.youtube.com"].

Definition instagram_hosts : list string :=
  ["www.instagram.com"; "instagram.com"].

Definition is_youtube_url (url : string) : M bool :=
  match netloc url with
  | Ok host => ret (existsb (String.eqb host) youtube_hosts)
  | Fails msg => raise (Error msg)
  end.

Definition is_instagram_url (url : string) : M bool :=
  match netloc url with
  | Ok host => ret (existsb (String.eqb host) instagram_hosts)
  | Fails msg => raise (Error msg)
  end.

(** The inline keyboard of [handle_url]: one button per row, each with
    its label and its [callback_data]. *)
Definition quality_keyboard (url : string) : list (string * string) :=
  [("🎥 Best Quality (720p)", "yt_best_" +:+ url);
   ("🔥 1080p (Large File)", "yt_1080_" +:+ url);
   ("📱 720p", "yt_720_" +:+ url);
   ("📱 480p", "yt_480_" +:+ url);
   ("🎵 Audio Only (MP3)", "yt_audio_" +:+ url)].

(** [url] is [update.message.text.strip()].  The replies are recorded as
    [Status] events; the call yields the keyboard it attaches to its
    reply, or the empty list when it attaches none. *)
Definition handle_url (url : string) : M (list (string * string)) :=
  if negb (Py.startswith "http://" url || Py.startswith "https://" url) then
    status "Please send a valid URL starting with http:// or https://" >>
    ret []
  else
    let* youtube := is_youtube_url url in
    if youtube then
      status "Choose download quality:" >>
      ret (quality_keyboard url)
    else
      let* instagram := is_instagram_url url in
      if instagram then
        status "📥 Starting Instagram download..." >>
        process_instagram_download self url >>
        ret []
      else
        status "❌ Unsupported URL. Please send a YouTube or Instagram link." >>
        ret [].

End Handlers.

(** ** Cookie files from environment variables *)

Definition newline : ascii := "010".
Definition backslash : ascii := "\".
Definition dquote : ascii := "034".

(** [s.replace(a, new)] for a one-character [a]. *)
Fixpoint replace_char (a : ascii) (new : string) (s : string) : string :=
  match s with
  | EmptyString => EmptyString
  | String c r =>
      if Ascii.eqb c a then new +:+ replace_char a new r
      else String c (replace_char a new r)
  end.

(** [s.replace(ab, new)] for a two-character [ab] and a one-character
    [new]: the occurrences are taken from left to right and do not
    overlap. *)
Fixpoint replace_pair (a b : ascii) (new : ascii) (s : string) : string :=
  match s with
  | EmptyString => EmptyString
  | String c r =>
      match r with
      | String c' r' =>
          if Ascii.eqb c a && Ascii.eqb c' b
          then String new (replace_pair a b new r')
          else String c (replace_pair a b new r)
      | EmptyString => String c EmptyString
      end
  end.

(** [escape_for_env] of [setup_env_cookies.py]:
    [content.replace('\n', '\\n').replace('"', '\\"')] *)
Definition escape_for_env (content : string) : string :=
  replace_char dquote (String backslash (String dquote EmptyString))
    (replace_char newline (String backslash (String "n" EmptyString)) content).

(** [os.getenv] of the two variables. *)
Record environ := {
  YOUTUBE_COOKIES : option string;
  INSTAGRAM_COOKIES : option string
}.

(** One half of [setup_cookies_from_env]: the file at [path] is written
    from the variable when the variable is set and not empty and the
    file does not exist; [can_open] tells whether [open(path, 'w')]
    succeeds, a failure being logged and otherwise ignored, and the
    write to an open file is taken to succeed.  [store] maps the path
    of each file to its content. *)
Definition cookies_from_env (variable : option string) (path : string)
    (can_open : bool) (store : gmap string string) : gmap string string :=
  match variable with
  | Some cookies_content =>
      if negb (String.eqb cookies_content EmptyString)
         && negb (bool_decide (is_Some (store !! path)))
      then
        if can_open
        then <[path := replace_pair backslash "n" newline cookies_content]> store
        else store
      else store
  | None => store
  end.

Definition setup_cookies_from_env (self : env) (env_vars : environ)
    (can_open : string -> bool) (store : gmap string string) : gmap string string :=
  let store :=
    cookies_from_env (YOUTUBE_COOKIES env_vars) (youtube_cookies self)
      (can_open (youtube_cookies self)) store in
  cookies_from_env (INSTAGRAM_COOKIES env_vars) (instagram_cookies self)
    (can_open (instagram_cookies self)) store.

(** The content holds no double quote and no backslash followed by the
    letter n. *)
Fixpoint plain (s : string) : bool :=
  match s with
  | EmptyString => true
  | String c r =>
      negb (Ascii.eqb c dquote)
      && negb (Ascii.eqb c backslash
               && match r with String c' _ => Ascii.eqb c' "n" | EmptyString => false end)
      && plain r
  end.

(** * Properties of the pipeline *)

(** ** Reading a log *)

(** The delivery calls, the status texts and the removed paths of a log,
    each in order. *)
Definition deliveries (l : list event) : list event := List.filter is_upload l.

Fixpoint statuses (l : list event) : list string :=
  match l with
  | [] => []
  | Status text :: l' => text :: statuses l'
  | _ :: l' => statuses l'
  end.

Fixpoint removals (l : list event) : list string :=
  match l with
  | [] => []
  | Remove path :: l' => path :: removals l'
  | _ :: l' => removals l'
  end.

Definition is_ydl_download (e : event) : bool :=
  match e with YdlDownload _ _ => true | _ => false end.

Fixpoint waits (l : list event) : list Z :=
  match l with
  | [] => []
  | WaitFor timeout :: l' => timeout :: waits l'
  | _ :: l' => waits l'
  end.

(** The last [n] events of a log. *)
Definition last_events (n : nat) (l : list event) : list event :=
  rev (firstn n (rev l)).

(** Every status text that reports a definite failure starts with the
    cross mark. *)
Definition definite_failure (text : string) : bool := Py.startswith "❌" text.

(** A request starts with an empty log. *)
Definition fresh (d : disk) : world := {| fs := d; log := [] |}.

(** The world in which [process_youtube_download] calls the adapter. *)
Definition at_download (d : disk) : world :=
  {| fs := d; log := [SendAction; Status msg_downloading; WaitFor 300] |}.

(** The world in which [process_instagram_download] calls the adapter. *)
Definition at_instagram_download (d : disk) : world :=
  {| fs := d; log := [SendAction; WaitFor 120] |}.

Definition MiB : Z := 1024 * 1024.
Definition GiB : Z := 1024 * 1024 * 1024.

(** The download of a primary-platform request succeeded: the adapter
    returned a file, and [os.path.getsize] reads [file_size]. *)
Record downloaded (self : env) (url quality : string) (d : disk)
    (file_path title : string) (type : media) (file_size : Z) (w1 : world) : Prop := {
  adapter_succeeds :
    download_youtube_video self url quality (at_download d)
    = (Val (success file_path title type), w1);
  size_read : getsize_in file_path (fs w1) = Some file_size
}.

(** The same for a secondary-platform request. *)
Record instagram_downloaded (self : env) (url : string) (d : disk)
    (file_path title : string) (type : media) (file_size : Z) (w1 : world) : Prop := {
  instagram_adapter_succeeds :
    download_instagram_content self url (at_instagram_download d)
    = (Val (success file_path title type), w1);
  instagram_size_read : getsize_in file_path (fs w1) = Some file_size
}.

(** The delivery call of each path, by kind of media. *)
Definition small_call (type : media) : delivery :=
  match type with audio => reply_audio | video => reply_video end.

Definition large_call (type : media) : delivery :=
  match type with audio => reply_audio | video => reply_document end.

(** The keys of [quality_map]. *)
Definition quality_keys : list string := ["best"; "1080"; "720"; "480"; "audio"].

(** An exception with text [msg] escapes the body of the adapter: the
    probe raises it, or the probe passes the duration check and the
    download raises it. *)
Definition youtube_raises (self : env) (url quality : string) (w : world)
    (msg : string) : Prop :=
  extract_info self (youtube_opts self quality) url = Fails msg
  \/ exists i,
       extract_info self (youtube_opts self quality) url = Ok i
       /\ too_long (default (Num 0%Q) (info_duration i)) = false
       /\ snd (ydl_download self (youtube_opts self quality) url (fs w)) = Fails msg.

Definition instagram_raises (self : env) (url : string) (w : world)
    (msg : string) : Prop :=
  extract_info self (instagram_opts self) url = Fails msg
  \/ exists i,
       extract_info self (instagram_opts self) url = Ok i
       /\ snd (ydl_download self (instagram_opts self) url (fs w)) = Fails msg.

(** The text of the duration-ceiling error. *)
Definition too_long_error : string := "Video is too long (max 10 minutes allowed)".

(** The probe reports no usable duration: the key is missing, or its
    value is [None] or zero. *)
Definition no_duration (d : option pyval) : Prop :=
  d = None \/ d = Some PyNone \/ exists q, d = Some (Num q) /\ (q == 0)%Q.

(** The texts of the authentication errors: they ask to update the
    cookie file when there is one and to add it when there is none. *)
Definition youtube_auth_error (self : env) : string :=
  if youtube_cookies_exists self
  then "Video requires authentication. Please update your YouTube cookies file."
  else "Video requires authentication. Please add your YouTube cookies file.".

Definition instagram_auth_error (self : env) : string :=
  if instagram_cookies_exists self
  then "Content requires authentication. Please update your Instagram cookies file."
  else "Content requires authentication. Please add your Instagram cookies file.".



(** ** Sample requests *)

Module Demo.

Definition clip (duration : option pyval) : info :=
  {| info_title := Some "Clip"; info_id := Some "dQw4w9WgXcQ";
     info_duration := duration |}.

(** A bot whose probe answers [probe] and whose download writes [file]
    of [size] bytes; Telegram answers the delivery calls by [answers]. *)
Definition bot (probe : answer info) (file : string) (size : Z)
    (answers : nat -> answer unit) : env :=
  {| temp_dir := "/tmp/tmpk3x9";
     youtube_cookies := "/app/youtube.com_cookies.txt";
     instagram_cookies := "/app/instagram.com_cookies.txt";
     youtube_cookies_exists := false;
     instagram_cookies_exists := true;
     extract_info := fun _ _ => probe;
     ydl_download := fun _ _ d => (d ++ [(path_join "/tmp/tmpk3x9" file, size)], Ok tt);
     created_recently := fun _ => true;
     send := answers |}.

Definition url : string := "https://youtu.be/dQw4w9WgXcQ".
Definition reel : string := "https://www.instagram.com/reel/Cx1yZ/".
Definition q720 : string := "136+140/best[height<=720]/134+140".
Definition data720 : string := "yt_720_https://youtu.be/dQw4w9WgXcQ".

Definition always_times_out : nat -> answer unit := fun _ => Fails "Timed out".
Definition always_ok : nat -> answer unit := fun _ => Ok tt.
Definition always_rejects : nat -> answer unit := fun _ => Fails "Bad Gateway".

End Demo.

(** Runs of the orchestrators on sample requests. *)
Module Runs.
Import Demo.

(** A video of 212 seconds that downloads to 10 MiB. *)
Definition small_file : string := "/tmp/tmpk3x9/dQw4w9WgXcQ_136.mp4".

Definition small_bot (answers : nat -> answer unit) : env :=
  bot (Ok (clip (Some (Num 212%Q)))) "dQw4w9WgXcQ_136.mp4" (10 * MiB) answers.

Definition small_run (answers : nat -> answer unit) : world :=
  snd (process_youtube_download (small_bot answers) data720 url q720 (fresh [])).

(** The same video downloading to 120 MiB. *)
Definition large_bot (answers : nat -> answer unit) : env :=
  bot (Ok (clip (Some (Num 212%Q)))) "dQw4w9WgXcQ_136.mp4" (120 * MiB) answers.

Definition large_run (answers : nat -> answer unit) : world :=
  snd (process_youtube_download (large_bot answers) data720 url q720 (fresh [])).

(** The world in which the adapter hands the file over. *)
Definition handed_over (self : env) : world :=
  snd (download_youtube_video self url q720 (at_download [])).

(** A stream whose duration the probe does not report. *)
Definition audio_bot : env :=
  bot (Ok (clip None)) "dQw4w9WgXcQ_bestaudio.mp3" (120 * MiB) always_ok.

(** A video of 601 seconds. *)
Definition long_bot : env :=
  bot (Ok (clip (Some (Num 601%Q)))) "dQw4w9WgXcQ_136.mp4" (10 * MiB) always_ok.

(** A 60 MiB reel, and a 10 MiB reel. *)
Definition reel_file : string := "/tmp/tmpk3x9/Cx1yZ.mp4".

Definition reel_bot (size : Z) (answers : nat -> answer unit) : env :=
  bot (Ok {| info_title := Some "Reel"; info_id := Some "Cx1yZ";
             info_duration := None |})
      "Cx1yZ.mp4" size answers.

Definition reel_handed_over (self : env) : world :=
  snd (download_instagram_content self reel (at_instagram_download [])).

(** Probes that fail. *)
Definition members_only : string :=
  "ERROR: [Instagram] Cx1yZ: This content is members only".

Definition members_only_bot : env :=
  bot (Fails members_only) "Cx1yZ.mp4" (10 * MiB) always_ok.

Definition age_gate : string :=
  "ERROR: [youtube] dQw4w9WgXcQ: Sign in to confirm your age".

Definition age_gate_bot : env :=
  bot (Fails age_gate) "dQw4w9WgXcQ_136.mp4" (10 * MiB) always_ok.

End Runs.

(** ** Further readers and names *)

(** The pauses of a log, in seconds. *)
Fixpoint pauses (l : list event) : list Z :=
  match l with
  | [] => []
  | Sleep seconds :: l' => seconds :: pauses l'
  | _ :: l' => pauses l'
  end.

(** The key by which [process_youtube_download] looks up the expected
    size: [query.data.split('_')[1] if '_' in query.data else 'best'],
    and [expected_sizes.get(quality_key, 50)]. *)
Definition quality_key_of (query_data : string) : string :=
  if Py.contains "_" query_data
  then default "best" (Py.split "_" query_data !! 1%nat)
  else "best".

Definition expected_mb_of (query_data : string) : Z :=
  default 50 (expected_sizes !! quality_key_of query_data).

(** Reading a shown size back: the value of a decimal digit, the number
    that a string of digits denotes together with ten to the number of
    its digits, and the number of tenths that a text "digits.digit"
    denotes. *)
Definition digit_value (c : ascii) : option Z :=
  let n := nat_of_ascii c in
  if (Nat.leb 48 n && Nat.leb n 57)%bool then Some (Z.of_nat n - 48) else None.

Fixpoint decimal (s : string) : option (Z * Z) :=
  match s with
  | EmptyString => Some (0, 1)
  | String c r =>
      match digit_value c, decimal r with
      | Some d, Some (v, m) => Some (d * m + v, 10 * m)
      | _, _ => None
      end
  end.

Definition tenths_shown (text : string) : option Z :=
  match Py.split "." text with
  | [whole; fraction] =>
      match decimal whole, decimal fraction with
      | Some (w, m), Some (f, m') =>
          if (1 <? m) && (m' =? 10) then Some (10 * w + f) else None
      | _, _ => None
      end
  | _ => None
  end.

(** The text of the format error of [download_youtube_video]. *)
Definition format_error : string :=
  "Requested video quality not available. Try a different quality option.".

(** The world in which [button_callback] starts the download. *)
Definition pressed (w : world) : world :=
  {| fs := fs w; log := log w ++ [Answer; Status "📥 Starting YouTube download..."] |}.

(** More sample requests. *)
Module Samples.
Import Demo.

(** Telegram times out once, then accepts. *)
Definition second_try : nat -> answer unit :=
  fun n => match n with O => Fails "Timed out" | _ => Ok tt end.

(** Telegram times out once, then rejects. *)
Definition second_rejects : nat -> answer unit :=
  fun n => match n with O => Fails "Timed out" | _ => Fails "Bad Gateway" end.

(** A video that yt-dlp cannot fetch in the requested format. *)
Definition no_format : string :=
  "ERROR: [youtube] dQw4w9WgXcQ: Requested format not available".

Definition no_format_bot : env :=
  bot (Fails no_format) "dQw4w9WgXcQ_136.mp4" (10 * MiB) always_ok.

Definition after_no_format : world :=
  snd (download_youtube_video no_format_bot url q720 (at_download [])).

(** The host of a URL of the form [scheme://host/...], enough for the
    sample messages. *)
Definition host_of (u : string) : answer string :=
  match Py.splitn "/" 3 u with
  | _ :: _ :: host :: _ => Ok host
  | _ => Ok EmptyString
  end.

(** A cookie file in the Netscape format, and the variables made from
    it by the converter. *)
Definition cookie_file : string :=
  "# Netscape HTTP Cookie File" +:+ String newline
    (".youtube.com	TRUE	/	TRUE	0	PREF	f6=40000000" +:+ String newline EmptyString).

Definition deployed : environ :=
  {| YOUTUBE_COOKIES := Some (escape_for_env cookie_file);
     INSTAGRAM_COOKIES := None |}.

End Samples.

(** ** The string functions and the size format on examples *)

Example lower_ex : Py.lower "Sign In to confirm: LOGIN" = "sign in to confirm: login".
Proof. reflexivity. Qed.

Example split_ex : Py.split "/" "136+140/best[height<=720]/18" = ["136+140"; "best[height<=720]"; "18"].
Proof. reflexivity. Qed.

Example splitn_ex :
  Py.splitn "_" 2 "yt_720_https://youtu.be/a_b" = ["yt"; "720"; "https://youtu.be/a_b"].
Proof. reflexivity. Qed.

Example contains_ex : Py.contains "timed out" "request timed out." = true.
Proof. reflexivity. Qed.

Example startswith_ex : Py.startswith "yt_" "yt_best_https://youtu.be/x" = true.
Proof. reflexivity. Qed.

(** A slice counts characters, not bytes: [é] takes two bytes. *)
Example take_ex :
  Py.take 3 "136+140" = "136"
  /\ Py.take 10 "éééééééééééé" = "éééééééééé"
  /\ Py.len "éééééééééé" = 10%nat
  /\ String.length "éééééééééé" = 20%nat.
Proof. repeat split. Qed.

Example quality_suffix_ex :
  quality_suffix "136+140/best[height<=720]/18" = "136"
  /\ quality_suffix "bestaudio[ext=m4a]/bestaudio" = "bestaudio["
  /\ quality_suffix "bestaudio" = "bestaudio".
Proof. repeat split. Qed.

(** [f"{x:.1f}"] rounds ties to even: 0.25 prints as 0.2, 0.75 as 0.8. *)
Example mb_ex :
  mb (10 * MiB) = "10.0" /\ mb 262144 = "0.2" /\ mb 786432 = "0.8"
  /\ mb (3 * GiB) = "3072.0" /\ mb 52428801 = "50.0".
Proof. repeat split. Qed.

(** ** Stepping through a run *)

(** Unfolds the monad and the outside calls, one layer at a time. *)
Ltac run :=
  repeat (progress
            (unfold call, try_except, bind, emit, status, wait_for, ret, return_,
               raise, getsize, remove, upload, read_disk, ydl_extract_info,
               ydl_download_, getitem, index;
             cbn [fs log app str])).

(** Reads what a finished log holds. *)
Ltac observe :=
  cbn [snd fst log fs];
  cbn [deliveries statuses removals waits uploads List.filter is_upload
       is_ydl_download app last length repeat last_events rev firstn].

Lemma exists_of_size p d n : getsize_in p d = Some n -> exists_in p d = true.
Proof. unfold exists_in. intros ->. reflexivity. Qed.

Lemma getsize_in_removed p d :
  getsize_in p (List.filter (fun e => negb (String.eqb (fst e) p)) d) = None.
Proof.
  induction d as [|[q n] d IH]; [reflexivity|].
  cbn [List.filter fst]. destruct (String.eqb q p) eqn:E; cbn [negb]; [exact IH|].
  cbn [getsize_in]. rewrite E. exact IH.
Qed.

Lemma size_small sz :
  sz <= 50 * MiB ->
  (2 * 1024 * 1024 * 1024 <? sz) = false /\ (50 * 1024 * 1024 <? sz) = false.
Proof. unfold MiB. intros H. split; apply Z.ltb_ge; lia. Qed.

Lemma size_large sz :
  50 * MiB < sz <= 2 * GiB ->
  (2 * 1024 * 1024 * 1024 <? sz) = false /\ (50 * 1024 * 1024 <? sz) = true.
Proof.
  unfold MiB, GiB. intros [H1 H2]. split; [apply Z.ltb_ge|apply Z.ltb_lt]; lia.
Qed.

Lemma size_huge sz : 2 * GiB < sz -> (2 * 1024 * 1024 * 1024 <? sz) = true.
Proof. unfold GiB. intros H. apply Z.ltb_lt. lia. Qed.

(** ** Texts built by concatenation *)

Lemma append_cons a (s t : string) : String a s +:+ t = String a (s +:+ t).
Proof. reflexivity. Qed.

Lemma startswith_app p s : Py.startswith p (p +:+ s) = true.
Proof.
  induction p as [|a p IH]; [reflexivity|].
  rewrite append_cons. cbn [Py.startswith]. rewrite Ascii.eqb_refl. exact IH.
Qed.

Lemma append_assoc (a b c : string) : (a +:+ b) +:+ c = a +:+ b +:+ c.
Proof.
  induction a as [|x a IH]; [reflexivity|].
  rewrite !append_cons, IH. reflexivity.
Qed.

Lemma startswith_contains p s :
  Py.startswith p s = true -> Py.contains p s = true.
Proof. intros H. destruct s; cbn [Py.contains]; rewrite H; reflexivity. Qed.

Lemma contains_tail p c s :
  Py.contains p s = true -> Py.contains p (String c s) = true.
Proof.
  intros H. cbn [Py.contains]. rewrite H.
  destruct (Py.startswith p (String c s)); reflexivity.
Qed.

(** A text occurs in whatever is built around it. *)
Lemma contains_later p a : forall s,
  Py.contains p s = true -> Py.contains p (a +:+ s) = true.
Proof.
  induction a as [|c a IH]; intros s H; [exact H|].
  rewrite append_cons. apply contains_tail, IH, H.
Qed.



(** ** The primary-platform adapter *)

(** A successful adapter call made exactly one probe and one download,
    in that order, and the media kind is audio only for the format
    [bestaudio]. *)
Lemma adapter_success self url q w fp title ty w1 :
  download_youtube_video self url q w = (Val (success fp title ty), w1) ->
  log w1 = log w ++ [ExtractInfo (youtube_opts self q) url;
                     YdlDownload (youtube_opts self q) url]
  /\ ty = (if String.eqb q "bestaudio" then audio else video).
Proof.
  unfold download_youtube_video. run. intros H.
  repeat (case_match; simplify_eq); cbn [fs log];
    rewrite <- ?app_assoc; split; reflexivity.
Qed.

(** No format of the quality table is [bestaudio]: a request made
    through [button_callback] is always handed over as a video. *)
Lemma quality_map_never_bestaudio key chain :
  quality_map !! key = Some chain -> String.eqb chain "bestaudio" = false.
Proof.
  unfold quality_map. intros H.
  repeat (rewrite lookup_insert in H; case_decide; [simplify_eq; reflexivity|]).
  rewrite lookup_singleton in H. case_decide; [simplify_eq; reflexivity|discriminate].
Qed.

Lemma too_long_spec d :
  too_long d = true <-> exists q, d = Num q /\ ~ (q == 0)%Q /\ (600 < q)%Q.
Proof.
  destruct d as [|q]; cbn [too_long].
  - split; [discriminate|]. intros (q & H & _). discriminate.
  - rewrite andb_true_iff, !negb_true_iff. split.
    + intros [H0 H600]. exists q. split; [reflexivity|]. split.
      * intros E. apply Qeq_bool_iff in E. congruence.
      * apply Qnot_le_lt. intros E. apply Qle_bool_iff in E. congruence.
    + intros (q' & [= <-] & H0 & H600). split.
      * destruct (Qeq_bool q 0) eqn:E; [|reflexivity].
        apply Qeq_bool_iff in E. contradiction.
      * destruct (Qle_bool q 600) eqn:E; [|reflexivity].
        apply Qle_bool_iff in E. apply Qle_not_lt in E. contradiction.
Qed.

Lemma over_600_too_long q : (600 < q)%Q -> too_long (Num q) = true.
Proof.
  intros H. apply too_long_spec. exists q. split; [reflexivity|]. split; [|exact H].
  intros E. rewrite E in H. revert H. apply Qle_not_lt. discriminate.
Qed.

Lemma no_duration_not_too_long d :
  no_duration d -> too_long (default (Num 0%Q) d) = false.
Proof.
  intros [->|[->|(q & -> & E)]]; try reflexivity.
  change (negb (Qeq_bool q 0) && negb (Qle_bool q 600) = false).
  apply Qeq_bool_iff in E. rewrite E. reflexivity.
Qed.

(** C5.  When the probe reports a duration above 600 seconds,
    [download_youtube_video] returns the error "Video is too long (max 10
    minutes allowed)"; the only call it made to yt-dlp is the probe, so
    [ydl.download] was not invoked, and the disk is as it was. *)
Theorem over_600_seconds_rejected_before_download self url quality w i q :
  extract_info self (youtube_opts self quality) url = Ok i ->
  info_duration i = Some (Num q) ->
  (600 < q)%Q ->
  download_youtube_video self url quality w
  = (Val (error too_long_error),
     {| fs := fs w; log := log w ++ [ExtractInfo (youtube_opts self quality) url] |}).
Proof.
  intros Hprobe Hd Hq.
  unfold download_youtube_video. run. rewrite Hprobe. run.
  rewrite Hd. change (default (Num 0%Q) (Some (Num q))) with (Num q).
  rewrite (over_600_too_long _ Hq). run.
  reflexivity.
Qed.

(** C10.  [download_youtube_video] returns the duration-ceiling error if
    and only if the probe succeeds and reports a duration that is truthy
    (not zero) and strictly above 600; and when the probe reports no
    duration, [None] or zero, the check is skipped and [ydl.download] is
    invoked. *)
Theorem duration_error_iff_truthy_over_600 self url quality w :
  (fst (download_youtube_video self url quality w) = Val (error too_long_error)
   <-> exists i q,
         extract_info self (youtube_opts self quality) url = Ok i
         /\ default (Num 0%Q) (info_duration i) = Num q
         /\ ~ (q == 0)%Q /\ (600 < q)%Q)
  /\ (forall i,
         extract_info self (youtube_opts self quality) url = Ok i ->
         no_duration (info_duration i) ->
         log (snd (download_youtube_video self url quality w))
         = log w ++ [ExtractInfo (youtube_opts self quality) url;
                     YdlDownload (youtube_opts self quality) url]).
Proof.
  split; [split|].
  - unfold download_youtube_video. run.
    destruct (extract_info self (youtube_opts self quality) url)
      as [i|msg] eqn:Hprobe; run.
    + destruct (too_long (default (Num 0%Q) (info_duration i))) eqn:Hlong.
      * intros _. apply too_long_spec in Hlong.
        destruct Hlong as (q & Hq & H0 & H600).
        exists i, q. auto.
      * run. unfold too_long_error.
        repeat (case_match; simplify_eq); cbn [fst]; intros; discriminate.
    + unfold too_long_error.
      repeat (case_match; simplify_eq); cbn [fst]; intros; discriminate.
  - intros (i & q & Hprobe & Hd & H0 & H600).
    unfold download_youtube_video. run. rewrite Hprobe. run.
    rewrite Hd. rewrite (over_600_too_long _ H600). reflexivity.
  - intros i Hprobe Hno.
    unfold download_youtube_video. run. rewrite Hprobe. run.
    rewrite (no_duration_not_too_long _ Hno). run.
    repeat (case_match; simplify_eq); cbn [snd log]; rewrite <- ?app_assoc;
      reflexivity.
Qed.

(** ** Failure classification *)

Lemma lower_ascii_eqb a b :
  Ascii.eqb a b = true -> Ascii.eqb (Py.lower_ascii a) (Py.lower_ascii b) = true.
Proof. intros H. apply Ascii.eqb_eq in H. subst b. apply Ascii.eqb_refl. Qed.

Lemma startswith_lower p : forall s,
  Py.startswith p s = true -> Py.startswith (Py.lower p) (Py.lower s) = true.
Proof.
  induction p as [|a p IH]; intros s; [reflexivity|].
  destruct s as [|b s]; cbn [Py.startswith Py.lower]; [discriminate|].
  destruct (Ascii.eqb a b) eqn:E; [|discriminate].
  rewrite (lower_ascii_eqb _ _ E). apply IH.
Qed.

Lemma contains_lower p s :
  Py.contains p s = true -> Py.contains (Py.lower p) (Py.lower s) = true.
Proof.
  induction s as [|c s IH]; cbn [Py.contains Py.lower].
  - destruct (Py.startswith p "") eqn:E; [|discriminate].
    intros _. apply startswith_lower in E. cbn [Py.lower] in E. rewrite E.
    reflexivity.
  - destruct (Py.startswith p (String c s)) eqn:E.
    + intros _. apply startswith_lower in E. cbn [Py.lower] in E. rewrite E.
      reflexivity.
    + intros H. rewrite (IH H).
      destruct (Py.startswith (Py.lower p) _); reflexivity.
Qed.

(** A keyword found in the error text, as it is or after lower-casing,
    is found by the adapters' test. *)
Lemma keyword_found keywords k msg :
  In k keywords ->
  Py.lower k = k ->
  Py.contains k msg = true \/ Py.contains k (Py.lower msg) = true ->
  Py.any_in keywords (Py.lower msg) = true.
Proof.
  intros Hin Hk H. unfold Py.any_in. apply existsb_exists. exists k.
  split; [exact Hin|]. destruct H as [H|H]; [|exact H].
  rewrite <- Hk. apply contains_lower. exact H.
Qed.

Lemma youtube_keywords_lower k : In k youtube_auth_keywords -> Py.lower k = k.
Proof. cbn [In youtube_auth_keywords]. intuition (subst; reflexivity). Qed.

Lemma instagram_keywords_lower k : In k instagram_auth_keywords -> Py.lower k = k.
Proof. cbn [In instagram_auth_keywords]. intuition (subst; reflexivity). Qed.

(** C9 (amended).  An extraction failure whose error text contains a
    keyword is classified as authentication-required by the YouTube
    adapter for the six keywords login, sign in, private, unavailable,
    members only, age-restricted, and by the Instagram adapter for the
    four keywords login, sign in, private, unavailable; the message asks
    to update the cookie file when there is one and to add it when there
    is none. *)
Theorem authentication_failures_by_platform self url w msg k :
  Py.contains k msg = true \/ Py.contains k (Py.lower msg) = true ->
  (In k youtube_auth_keywords ->
   forall quality,
     youtube_raises self url quality w msg ->
     fst (download_youtube_video self url quality w)
     = Val (error (youtube_auth_error self)))
  /\ (In k instagram_auth_keywords ->
      instagram_raises self url w msg ->
      fst (download_instagram_content self url w)
      = Val (error (instagram_auth_error self))).
Proof.
  intros Hk. split.
  - intros Hin quality Hraise.
    pose proof (keyword_found _ _ _ Hin (youtube_keywords_lower _ Hin) Hk) as Hany.
    unfold download_youtube_video, youtube_auth_error. run.
    destruct Hraise as [Hprobe|(i & Hprobe & Hlong & Hdl)]; rewrite Hprobe; run.
    + rewrite Hany. destruct (youtube_cookies_exists self); reflexivity.
    + rewrite Hlong. run.
      destruct (ydl_download self (youtube_opts self quality) url (fs w)) as [d' r].
      cbn [snd] in Hdl. subst r. run.
      rewrite Hany. destruct (youtube_cookies_exists self); reflexivity.
  - intros Hin Hraise.
    pose proof (keyword_found _ _ _ Hin (instagram_keywords_lower _ Hin) Hk) as Hany.
    unfold download_instagram_content, instagram_auth_error. run.
    destruct Hraise as [Hprobe|(i & Hprobe & Hdl)]; rewrite Hprobe; run.
    + rewrite Hany. destruct (instagram_cookies_exists self); reflexivity.
    + destruct (ydl_download self (instagram_opts self) url (fs w)) as [d' r].
      cbn [snd] in Hdl. subst r. run.
      rewrite Hany. destruct (instagram_cookies_exists self); reflexivity.
Qed.

(** ** The quality resolver *)

Lemma quality_map_unknown key : ~ In key quality_keys -> quality_map !! key = None.
Proof.
  intros H. unfold quality_map. cbn [In quality_keys] in H.
  rewrite !lookup_insert_ne by (intros E; apply H; subst; auto 10).
  apply lookup_singleton_ne. intros E. apply H. subst. auto 10.
Qed.

(** C7.  For each of the keys best, 1080, 720, 480, audio the lookup in
    [quality_map] yields one fixed format chain, whatever the state of
    the world and without changing it; the chain has at least one
    format and no empty one.  For any other key the lookup raises
    [KeyError]; [button_callback] does not catch it, shows no error
    text and starts no download. *)
Theorem quality_resolver_total_on_keys key :
  (In key quality_keys ->
   exists chain,
     (forall w, getitem quality_map key w = (Val chain, w))
     /\ Py.split "/" chain <> []
     /\ Forall (fun f => f <> "") (Py.split "/" chain))
  /\ (~ In key quality_keys ->
      (forall w, getitem quality_map key w = (Raise (KeyError key), w))
      /\ forall self data p url w,
           Py.startswith "yt_" data = true ->
           Py.splitn "_" 2 data = [p; key; url] ->
           button_callback self data w
           = (Raise (KeyError key),
              {| fs := fs w;
                 log := log w ++ [Answer; Status "📥 Starting YouTube download..."] |})).
Proof.
  split.
  - cbn [In quality_keys].
    intros [<-|[<-|[<-|[<-|[<-|[]]]]]]; eexists;
      (split; [intros w; reflexivity|]);
      (split; [discriminate|]); vm_compute;
      repeat (constructor; [discriminate|]); constructor.
  - intros H. pose proof (quality_map_unknown _ H) as Hnone. split.
    + intros w. unfold getitem. rewrite Hnone. reflexivity.
    + intros self data p url w Hyt Hparts.
      unfold button_callback. run. rewrite Hyt, Hparts.
      cbn [lookup list_lookup]. run. cbn [fst snd]. rewrite Hnone. run.
      rewrite <- app_assoc. reflexivity.
Qed.

(** ** The primary-platform orchestrator *)

(** Enters [process_youtube_download] up to the size checks, for a
    request whose download succeeded. *)
Ltac enter Hdl Hsz w1 :=
  let Hlog := fresh "Hlog" in
  let Hty := fresh "Hty" in
  let d1 := fresh "d1" in
  let l1 := fresh "l1" in
  destruct (adapter_success _ _ _ _ _ _ _ _ Hdl) as [Hlog Hty];
  destruct w1 as [d1 l1]; cbn [fs log at_download app] in *; subst l1;
  unfold process_youtube_download, fresh; run;
  unfold at_download in Hdl; rewrite Hdl; run; rewrite Hsz.

(** Splits on the advisory size warning. *)
Ltac split_advisory sz :=
  match goal with
  | |- context [if (?a <? 2 * sz) then _ else _] => destruct (a <? 2 * sz)
  end.

(** One round of a delivery attempt. *)
Ltac small_step Hex :=
  repeat (progress
            (cbn [upload_attempts seq max_retries Nat.ltb Nat.leb Nat.sub andb
                  small_call large_call];
             run;
             rewrite ?Hex;
             cbn [uploads List.filter is_upload length])).

(** Splits on the next answer of Telegram, or on the flavour of its
    error. *)
Ltac branch self :=
  match goal with
  | |- context [match send self ?n with _ => _ end] =>
      destruct (send self n) as [[]|?m] eqn:?
  | |- context [if is_timeout ?m && _ then _ else _] =>
      destruct (is_timeout m) eqn:?
  | |- context [if is_timeout ?m then _ else _] =>
      destruct (is_timeout m) eqn:?
  end.

Ltac count_calls :=
  first [ solve [exists 1%nat; eexists; split; [lia|reflexivity]]
        | solve [exists 2%nat; eexists; split; [lia|reflexivity]]
        | solve [exists 3%nat; eexists; split; [lia|reflexivity]] ].

Ltac no_failure_shown :=
  repeat first [solve [constructor] | constructor; [reflexivity|]].

(** The retry loop never runs out with [upload_success] still [False]:
    its third round either succeeds or returns. *)
Lemma retry_loop_never_exhausted self fp title ty sz w :
  fst (upload_attempts self fp title ty sz (seq 0 max_retries) w) <> Val false.
Proof.
  destruct (exists_in fp (fs w)) eqn:Hex; destruct ty;
    small_step Hex; repeat (branch self; small_step Hex);
    cbn [fst]; discriminate.
Qed.

(** The routing of [process_youtube_download] for any format string:
    by the observed size and by the media kind, which is audio exactly
    for the format [bestaudio]. *)
Lemma routing_for_any_format self query_data url quality d fp title ty sz w1 :
  downloaded self url quality d fp title ty sz w1 ->
  let w2 := snd (process_youtube_download self query_data url quality (fresh d)) in
  ty = (if String.eqb quality "bestaudio" then audio else video)
  /\ (sz <= 50 * MiB ->
      exists n caption,
        (1 <= n <= 3)%nat
        /\ deliveries (log w2) = repeat (Upload (small_call ty) fp caption) n)
  /\ (50 * MiB < sz <= 2 * GiB ->
      exists caption, deliveries (log w2) = [Upload (large_call ty) fp caption])
  /\ (2 * GiB < sz ->
      deliveries (log w2) = [] /\ last (statuses (log w2)) = Some msg_too_large).
Proof.
  intros [Hdl Hsz].
  pose proof (exists_of_size _ _ _ Hsz) as Hex.
  split; [exact (proj2 (adapter_success _ _ _ _ _ _ _ _ Hdl))|].
  split; [|split].
  - intros Hrange. destruct (size_small _ Hrange) as [Hmax H50].
    enter Hdl Hsz w1. rewrite Hmax, H50.
    split_advisory sz; destruct ty; small_step Hex;
      repeat (branch self; small_step Hex); observe; count_calls.
  - intros Hrange. destruct (size_large _ Hrange) as [Hmax H50].
    enter Hdl Hsz w1. rewrite Hmax, H50.
    split_advisory sz; destruct ty; small_step Hex;
      repeat (branch self; small_step Hex); observe; eexists; reflexivity.
  - intros Hrange. pose proof (size_huge _ Hrange) as Hmax.
    enter Hdl Hsz w1. rewrite Hmax.
    split_advisory sz; run; observe; split; reflexivity.
Qed.

(** C1.  [process_youtube_download] is called from [button_callback]
    only, with a format of the quality table (line 395).  For every such
    request whose download succeeded the file is a video, and the
    orchestrator routes by the observed size: up to 50 MiB it sends the
    file as typed media, with between one and three [reply_video] calls
    and no other delivery call; above 50 MiB and up to 2 GiB it makes
    exactly one delivery call, a [reply_document]; above 2 GiB it makes
    no delivery call and ends on the failure text that says the file is
    too large. *)
Theorem routing_by_size self key query_data url quality d fp title ty sz w1 :
  quality_map !! key = Some quality ->
  downloaded self url quality d fp title ty sz w1 ->
  let w2 := snd (process_youtube_download self query_data url quality (fresh d)) in
  ty = video
  /\ (sz <= 50 * MiB ->
      exists n caption,
        (1 <= n <= 3)%nat
        /\ deliveries (log w2) = repeat (Upload reply_video fp caption) n)
  /\ (50 * MiB < sz <= 2 * GiB ->
      exists caption, deliveries (log w2) = [Upload reply_document fp caption])
  /\ (2 * GiB < sz ->
      deliveries (log w2) = []
      /\ last (statuses (log w2)) = Some msg_too_large
      /\ definite_failure msg_too_large = true
      /\ Py.contains "too large" msg_too_large = true).
Proof.
  intros Hkey Hdown.
  destruct (routing_for_any_format self query_data _ _ _ _ _ _ _ _ Hdown)
    as (Hty & Hsmall & Hlarge & Hhuge).
  rewrite (quality_map_never_bestaudio _ _ Hkey) in Hty. subst ty.
  cbn [small_call large_call] in Hsmall, Hlarge.
  split; [reflexivity|]. split; [exact Hsmall|]. split; [exact Hlarge|].
  intros Hrange. destruct (Hhuge Hrange) as [Hnone Hlast].
  split; [exact Hnone|]. split; [exact Hlast|]. split; reflexivity.
Qed.

(** C2 (amended).  On the small-file path, when all three delivery
    calls fail with timeout-flavoured errors, the orchestrator makes
    exactly three calls and ends on the text "may still be uploading in
    the background"; no text of the run reports a definite failure. *)
Theorem three_timeouts_end_ambiguous
    self query_data url quality d fp title ty sz w1 m0 m1 m2 :
  downloaded self url quality d fp title ty sz w1 ->
  sz <= 50 * MiB ->
  send self 0 = Fails m0 -> send self 1 = Fails m1 -> send self 2 = Fails m2 ->
  is_timeout m0 = true -> is_timeout m1 = true -> is_timeout m2 = true ->
  let w2 := snd (process_youtube_download self query_data url quality (fresh d)) in
  (exists caption,
      deliveries (log w2) = repeat (Upload (small_call ty) fp caption) 3)
  /\ last (statuses (log w2)) = Some (msg_unknown sz)
  /\ Forall (fun text => definite_failure text = false) (statuses (log w2)).
Proof.
  intros [Hdl Hsz] Hrange H0 H1 H2 T0 T1 T2.
  destruct (size_small _ Hrange) as [Hmax H50].
  pose proof (exists_of_size _ _ _ Hsz) as Hex.
  enter Hdl Hsz w1. rewrite Hmax, H50.
  split_advisory sz; destruct ty; small_step Hex;
    rewrite H0; small_step Hex; rewrite T0; small_step Hex;
    rewrite H1; small_step Hex; rewrite T1; small_step Hex;
    rewrite H2; small_step Hex; rewrite T2; small_step Hex;
    observe; (split; [eexists; reflexivity|split; [reflexivity|no_failure_shown]]).
Qed.

(** C3.  On the small-file path the third attempt is the final one; it
    is made when the first two calls failed with timeout-flavoured
    errors.  When it fails with such an error too, no further delivery
    call is made: the run has exactly three calls and ends with the
    third call, the text that says the file "may still be uploading in
    the background" and a pause of 10 seconds.  That text does not
    report a definite failure, and neither does any other text of the
    run. *)
Theorem final_timeout_is_reported_as_unknown
    self query_data url quality d fp title ty sz w1 m0 m1 m :
  downloaded self url quality d fp title ty sz w1 ->
  sz <= 50 * MiB ->
  send self 0 = Fails m0 -> is_timeout m0 = true ->
  send self 1 = Fails m1 -> is_timeout m1 = true ->
  send self 2 = Fails m -> is_timeout m = true ->
  let w2 := snd (process_youtube_download self query_data url quality (fresh d)) in
  uploads (log w2) = 3%nat
  /\ (exists caption,
         last_events 3 (log w2)
         = [Upload (small_call ty) fp caption; Status (msg_unknown sz); Sleep 10])
  /\ last (statuses (log w2)) = Some (msg_unknown sz)
  /\ Py.contains "may still be uploading in the background" (msg_unknown sz) = true
  /\ definite_failure (msg_unknown sz) = false
  /\ Forall (fun text => definite_failure text = false) (statuses (log w2)).
Proof.
  intros [Hdl Hsz] Hrange H0 T0 H1 T1 H2 T2.
  destruct (size_small _ Hrange) as [Hmax H50].
  pose proof (exists_of_size _ _ _ Hsz) as Hex.
  assert (Hsays : Py.contains "may still be uploading in the background"
                    (msg_unknown sz) = true).
  { unfold msg_unknown. apply contains_later, contains_later. reflexivity. }
  enter Hdl Hsz w1. rewrite Hmax, H50.
  split_advisory sz; destruct ty; small_step Hex;
    rewrite H0; small_step Hex; rewrite T0; small_step Hex;
    rewrite H1; small_step Hex; rewrite T1; small_step Hex;
    rewrite H2; small_step Hex; rewrite T2; small_step Hex;
    observe;
    (split; [reflexivity|]); (split; [eexists; reflexivity|]);
    (split; [reflexivity|]); (split; [exact Hsays|]);
    (split; [reflexivity|no_failure_shown]).
Qed.


(** When the orchestrator removes the downloaded file, it does so once,
    as its last step and after a delivery call; on the other runs it
    does not remove it at all. *)
Lemma removal_once_and_last self query_data url quality d fp title ty sz w1 :
  downloaded self url quality d fp title ty sz w1 ->
  let w2 := snd (process_youtube_download self query_data url quality (fresh d)) in
  removals (log w2) = []
  \/ (removals (log w2) = [fp]
      /\ last (log w2) = Some (Remove fp)
      /\ (1 <= uploads (log w2))%nat).
Proof.
  intros [Hdl Hsz].
  pose proof (exists_of_size _ _ _ Hsz) as Hex.
  enter Hdl Hsz w1.
  destruct (2 * 1024 * 1024 * 1024 <? sz);
    [|destruct (50 * 1024 * 1024 <? sz)];
    split_advisory sz; destruct ty; small_step Hex;
    repeat (branch self; small_step Hex); observe;
    first [left; reflexivity | right; repeat split; lia].
Qed.

(** C4, at the failing input: a 10 MiB video whose first delivery call is
    answered "Bad Gateway".  The run makes that one call, ends on the
    text "Upload failed: Bad Gateway", never calls [os.remove], and the
    file is still on the disk. *)
Theorem temp_file_kept_after_failed_upload :
  deliveries (log (Runs.small_run Demo.always_rejects))
  = [Upload reply_video Runs.small_file "🎥 Clip"]
  /\ last (statuses (log (Runs.small_run Demo.always_rejects)))
     = Some (msg_failed "Bad Gateway" (10 * MiB))
  /\ removals (log (Runs.small_run Demo.always_rejects)) = []
  /\ getsize_in Runs.small_file (fs (Runs.small_run Demo.always_rejects))
     = Some (10 * MiB).
Proof. vm_compute. repeat split. Qed.

(** ** The secondary-platform flow *)


Lemma instagram_adapter_success self url w fp title ty w1 :
  download_instagram_content self url w = (Val (success fp title ty), w1) ->
  log w1 = log w ++ [ExtractInfo (instagram_opts self) url;
                     YdlDownload (instagram_opts self) url].
Proof.
  unfold download_instagram_content. run. intros H.
  repeat (case_match; simplify_eq); cbn [fs log]; rewrite <- ?app_assoc;
    reflexivity.
Qed.


(** Enters [process_instagram_download] up to the size check, for a
    request whose download succeeded. *)
Ltac enter_instagram Hdl Hsz w1 :=
  let Hlog := fresh "Hlog" in
  let d1 := fresh "d1" in
  let l1 := fresh "l1" in
  pose proof (instagram_adapter_success _ _ _ _ _ _ _ Hdl) as Hlog;
  destruct w1 as [d1 l1]; cbn [fs log at_instagram_download app] in *; subst l1;
  unfold process_instagram_download, fresh; run;
  unfold at_instagram_download in Hdl; rewrite Hdl; run; rewrite Hsz.


(** ** Where the code departs from the specification *)

(** C2, counterexample: three timeouts in a row on a 10 MiB video.  The
    run makes three delivery calls and ends on the text "may still be
    uploading"; the text "Upload failed after 3 attempts" is never
    shown. *)
Lemma three_timeouts_not_reported_as_failure :
  uploads (log (Runs.small_run Demo.always_times_out)) = 3%nat
  /\ last (statuses (log (Runs.small_run Demo.always_times_out)))
     = Some (msg_unknown (10 * MiB))
  /\ ~ In (msg_failed_after 3 (10 * MiB))
         (statuses (log (Runs.small_run Demo.always_times_out))).
Proof.
  split; [reflexivity|]. split; [reflexivity|].
  vm_compute. intuition discriminate.
Qed.

(** C9, counterexample: the Instagram adapter reports a failure whose
    text contains "members only" as a generic download failure, not as
    an authentication error. *)
Lemma instagram_members_only_is_generic :
  Py.contains "members only" Runs.members_only = true
  /\ fst (download_instagram_content Runs.members_only_bot Demo.reel
            (at_instagram_download []))
     = Val (error ("Download failed: " +:+ Runs.members_only))
  /\ fst (download_instagram_content Runs.members_only_bot Demo.reel
            (at_instagram_download []))
     <> Val (error (instagram_auth_error Runs.members_only_bot)).
Proof. split; [reflexivity|]. split; [reflexivity|]. discriminate. Qed.

(** ** The theorems at sample requests *)

(** The sample downloads succeed. *)
Lemma small_download (answers : nat -> answer unit) :
  downloaded (Runs.small_bot answers) Demo.url Demo.q720 [] Runs.small_file
    "Clip" video (10 * MiB) (Runs.handed_over (Runs.small_bot answers)).
Proof. constructor; reflexivity. Defined.

Lemma large_download (answers : nat -> answer unit) :
  downloaded (Runs.large_bot answers) Demo.url Demo.q720 [] Runs.small_file
    "Clip" video (120 * MiB) (Runs.handed_over (Runs.large_bot answers)).
Proof. constructor; reflexivity. Defined.

(** C1, on the 120 MiB video requested with the key 720: one call, as
    a document. *)
Lemma routing_by_size_witness :
  quality_map !! "720" = Some Demo.q720
  /\ downloaded (Runs.large_bot Demo.always_ok) Demo.url Demo.q720 []
       Runs.small_file "Clip" video (120 * MiB)
       (Runs.handed_over (Runs.large_bot Demo.always_ok))
  /\ 50 * MiB < 120 * MiB <= 2 * GiB
  /\ exists caption,
       deliveries (log (Runs.large_run Demo.always_ok))
       = [Upload reply_document Runs.small_file caption].
Proof.
  assert (K : quality_map !! "720" = Some Demo.q720) by reflexivity.
  assert (R : 50 * MiB < 120 * MiB <= 2 * GiB) by (unfold MiB, GiB; lia).
  split; [exact K|]. split; [apply large_download|]. split; [exact R|].
  exact (proj1 (proj2 (proj2 (routing_by_size _ "720" Demo.data720 _ _ _ _ _ _ _ _
                                K (large_download Demo.always_ok))))
           R).
Defined.

(** C2 (amended), on the 10 MiB video with three timeouts. *)
Lemma three_timeouts_end_ambiguous_witness :
  downloaded (Runs.small_bot Demo.always_times_out) Demo.url Demo.q720 []
    Runs.small_file "Clip" video (10 * MiB)
    (Runs.handed_over (Runs.small_bot Demo.always_times_out))
  /\ 10 * MiB <= 50 * MiB
  /\ is_timeout "Timed out" = true
  /\ last (statuses (log (Runs.small_run Demo.always_times_out)))
     = Some (msg_unknown (10 * MiB)).
Proof.
  split; [apply small_download|]. split; [unfold MiB; lia|].
  split; [reflexivity|].
  apply (three_timeouts_end_ambiguous _ Demo.data720 _ _ _ _ _ _ _ _
           "Timed out" "Timed out" "Timed out"
           (small_download Demo.always_times_out));
    first [reflexivity | unfold MiB; lia].
Defined.

(** C3, on the 10 MiB video with three timeouts. *)
Lemma final_timeout_is_reported_as_unknown_witness :
  downloaded (Runs.small_bot Demo.always_times_out) Demo.url Demo.q720 []
    Runs.small_file "Clip" video (10 * MiB)
    (Runs.handed_over (Runs.small_bot Demo.always_times_out))
  /\ 10 * MiB <= 50 * MiB
  /\ Demo.always_times_out 2%nat = Fails "Timed out"
  /\ is_timeout "Timed out" = true
  /\ uploads (log (Runs.small_run Demo.always_times_out)) = 3%nat
  /\ exists caption,
       last_events 3 (log (Runs.small_run Demo.always_times_out))
       = [Upload reply_video Runs.small_file caption;
          Status (msg_unknown (10 * MiB)); Sleep 10].
Proof.
  assert (R : 10 * MiB <= 50 * MiB) by (unfold MiB; lia).
  split; [apply small_download|]. split; [exact R|].
  split; [reflexivity|]. split; [reflexivity|].
  destruct (final_timeout_is_reported_as_unknown _ Demo.data720 _ _ _ _ _ _ _ _
              "Timed out" "Timed out" "Timed out"
              (small_download Demo.always_times_out) R
              eq_refl eq_refl eq_refl eq_refl eq_refl eq_refl)
    as (Hn & Hlast & _).
  split; [exact Hn|exact Hlast].
Defined.


(** C5, on a video of 601 seconds. *)
Lemma over_600_seconds_rejected_before_download_witness :
  info_duration (Demo.clip (Some (Num 601%Q))) = Some (Num 601%Q)
  /\ (600 < 601)%Q
  /\ download_youtube_video Runs.long_bot Demo.url Demo.q720 (fresh [])
     = (Val (error too_long_error),
        {| fs := [];
           log := [ExtractInfo (youtube_opts Runs.long_bot Demo.q720) Demo.url] |}).
Proof.
  split; [reflexivity|]. split; [reflexivity|].
  apply (over_600_seconds_rejected_before_download Runs.long_bot Demo.url
           Demo.q720 (fresh []) (Demo.clip (Some (Num 601%Q))) 601%Q);
    reflexivity.
Defined.

(** C10, on a stream whose duration the probe does not report. *)
Lemma duration_error_iff_truthy_over_600_witness :
  no_duration (info_duration (Demo.clip None))
  /\ log (snd (download_youtube_video Runs.audio_bot Demo.url "bestaudio" (fresh [])))
     = [ExtractInfo (youtube_opts Runs.audio_bot "bestaudio") Demo.url;
        YdlDownload (youtube_opts Runs.audio_bot "bestaudio") Demo.url].
Proof.
  assert (H : no_duration (info_duration (Demo.clip None))) by (left; reflexivity).
  split; [exact H|].
  apply (proj2 (duration_error_iff_truthy_over_600 Runs.audio_bot Demo.url
                  "bestaudio" (fresh []))
           (Demo.clip None)); [reflexivity|exact H].
Defined.

(** C9 (amended), on a YouTube probe that asks to sign in. *)
Lemma authentication_failures_by_platform_witness :
  Py.contains "sign in" (Py.lower Runs.age_gate) = true
  /\ In "sign in" youtube_auth_keywords
  /\ youtube_raises Runs.age_gate_bot Demo.url Demo.q720 (fresh []) Runs.age_gate
  /\ fst (download_youtube_video Runs.age_gate_bot Demo.url Demo.q720 (fresh []))
     = Val (error "Video requires authentication. Please add your YouTube cookies file.").
Proof.
  assert (K : In "sign in" youtube_auth_keywords) by (right; left; reflexivity).
  assert (R : youtube_raises Runs.age_gate_bot Demo.url Demo.q720 (fresh [])
                Runs.age_gate) by (left; reflexivity).
  split; [reflexivity|]. split; [exact K|]. split; [exact R|].
  apply (proj1 (authentication_failures_by_platform Runs.age_gate_bot Demo.url
                  (fresh []) Runs.age_gate "sign in" (or_intror eq_refl))
           K Demo.q720 R).
Defined.

(** C7, on the key 720 and on the unknown key 4k. *)
Lemma quality_resolver_total_on_keys_witness :
  In "720" quality_keys
  /\ ~ In "4k" quality_keys
  /\ (exists chain, forall w, getitem quality_map "720" w = (Val chain, w))
  /\ forall w, getitem quality_map "4k" w = (Raise (KeyError "4k"), w).
Proof.
  assert (K : In "720" quality_keys) by (right; right; left; reflexivity).
  assert (U : ~ In "4k" quality_keys).
  { cbn [In quality_keys]. intros H.
    repeat (destruct H as [H|H]; [discriminate H|]). exact H. }
  split; [exact K|]. split; [exact U|]. split.
  - destruct (proj1 (quality_resolver_total_on_keys "720") K) as (chain & H & _).
    exists chain. exact H.
  - exact (proj1 (proj2 (quality_resolver_total_on_keys "4k") U)).
Defined.

Lemma reel_download (size : Z) (answers : nat -> answer unit) :
  instagram_downloaded (Runs.reel_bot size answers) Demo.reel [] Runs.reel_file
    "Reel" video size (Runs.reel_handed_over (Runs.reel_bot size answers)).
Proof. constructor; reflexivity. Defined.


(** * Further properties *)

(** ** The adapters, once more *)

(** The adapter never raises and never returns without a dict; it
    probes once and downloads at most once. *)
Lemma youtube_adapter_log self url q w r w1 :
  download_youtube_video self url q w = (r, w1) ->
  (exists x, r = Val x)
  /\ (log w1 = log w ++ [ExtractInfo (youtube_opts self q) url]
      \/ log w1 = log w ++ [ExtractInfo (youtube_opts self q) url;
                            YdlDownload (youtube_opts self q) url]).
Proof.
  unfold download_youtube_video. run. intros H.
  repeat (case_match; simplify_eq); cbn [fs log]; rewrite <- ?app_assoc;
    (split; [eexists; reflexivity|]); auto.
Qed.

(** X1.  Neither adapter ever raises: its result is always a dict.  It
    probes once and downloads at most once, and when it did not reach
    the download the disk is as it was. *)
Theorem adapters_never_raise self url quality w :
  (exists x,
      fst (download_youtube_video self url quality w) = Val x
      /\ ((log (snd (download_youtube_video self url quality w))
           = log w ++ [ExtractInfo (youtube_opts self quality) url]
           /\ fs (snd (download_youtube_video self url quality w)) = fs w)
          \/ log (snd (download_youtube_video self url quality w))
             = log w ++ [ExtractInfo (youtube_opts self quality) url;
                         YdlDownload (youtube_opts self quality) url]))
  /\ (exists x,
         fst (download_instagram_content self url w) = Val x
         /\ ((log (snd (download_instagram_content self url w))
              = log w ++ [ExtractInfo (instagram_opts self) url]
              /\ fs (snd (download_instagram_content self url w)) = fs w)
             \/ log (snd (download_instagram_content self url w))
                = log w ++ [ExtractInfo (instagram_opts self) url;
                            YdlDownload (instagram_opts self) url])).
Proof.
  split.
  - unfold download_youtube_video. run.
    repeat (case_match; simplify_eq); cbn [fst snd fs log];
      rewrite <- ?app_assoc; eexists; (split; [reflexivity|]); auto.
  - unfold download_instagram_content. run.
    repeat (case_match; simplify_eq); cbn [fst snd fs log];
      rewrite <- ?app_assoc; eexists; (split; [reflexivity|]); auto.
Qed.

Lemma strip_prefix_Some p : forall s r, strip_prefix p s = Some r -> s = p +:+ r.
Proof.
  induction p as [|a p IH]; intros s r; cbn [strip_prefix].
  - intros [= ->]. reflexivity.
  - destruct s as [|b s]; [discriminate|].
    destruct (Ascii.eqb a b) eqn:E; [|discriminate].
    apply Ascii.eqb_eq in E. subst b. intros H.
    rewrite append_cons, (IH _ _ H). reflexivity.
Qed.

Lemma exists_in_entry p n d : In (p, n) d -> exists_in p d = true.
Proof.
  unfold exists_in. induction d as [|[q k] d IH]; [intros []|].
  intros [[= -> ->]|H]; cbn [getsize_in].
  - rewrite String.eqb_refl. reflexivity.
  - destruct (String.eqb q p); [reflexivity|]. apply IH. exact H.
Qed.

Lemma listdir_in_on_disk dir d name :
  In name (listdir_in dir d) -> exists_in (path_join dir name) d = true.
Proof.
  unfold listdir_in. intros H. apply list_elem_of_In in H.
  apply list_elem_of_omap in H. destruct H as ([p n] & Hin & Hf).
  cbn [fst] in Hf.
  destruct (strip_prefix (dir +:+ "/") p) as [name'|] eqn:Hp; [|discriminate].
  destruct (Py.contains "/" name'); [discriminate|]. injection Hf as ->.
  apply strip_prefix_Some in Hp. subst p.
  apply list_elem_of_In in Hin. unfold path_join.
  rewrite <- append_assoc. eapply exists_in_entry. exact Hin.
Qed.

Lemma exists_in_size p d : exists_in p d = true -> exists n, getsize_in p d = Some n.
Proof. unfold exists_in. destruct (getsize_in p d); [eauto|discriminate]. Qed.

Lemma path_join_in_dir dir name :
  Py.startswith (dir +:+ "/") (path_join dir name) = true.
Proof. unfold path_join. rewrite <- append_assoc. apply startswith_app. Qed.

Ltac found_file :=
  match goal with
  | H : List.find _ (List.map _ _) = Some _ |- _ =>
      let Hin := fresh "Hin" in
      let Hex := fresh "Hex" in
      apply find_some in H; destruct H as [Hin Hex];
      apply in_map_iff in Hin; destruct Hin as (ext & <- & _);
      split; [apply exists_in_size; exact Hex|apply path_join_in_dir]
  | H : List.find _ (listdir_in _ _) = Some _ |- _ =>
      let Hin := fresh "Hin" in
      apply find_some in H; destruct H as [Hin _];
      split; [apply exists_in_size, listdir_in_on_disk; exact Hin
             |apply path_join_in_dir]
  end.

(** X2.  The file path an adapter returns on success names a file that
    is on the disk, under the temporary directory. *)
Theorem returned_file_is_on_disk self url w fp title ty w1 :
  (forall quality,
      download_youtube_video self url quality w = (Val (success fp title ty), w1) ->
      (exists size, getsize_in fp (fs w1) = Some size)
      /\ Py.startswith (temp_dir self +:+ "/") fp = true)
  /\ (download_instagram_content self url w = (Val (success fp title ty), w1) ->
      (exists size, getsize_in fp (fs w1) = Some size)
      /\ Py.startswith (temp_dir self +:+ "/") fp = true).
Proof.
  split.
  - intros quality. unfold download_youtube_video. run. intros H.
    repeat (case_match; simplify_eq); cbn [fs]; found_file.
  - unfold download_instagram_content. run. intros H.
    repeat (case_match; simplify_eq); cbn [fs]; found_file.
Qed.

(** X3.  A failure whose text holds no authentication keyword is
    reported by the YouTube adapter as the format error when the text
    contains "requested format not available" in any letter case, and
    otherwise by both adapters as "Download failed: " followed by the
    text as it was raised. *)
Theorem other_failures_by_platform self url w msg :
  (Py.any_in youtube_auth_keywords (Py.lower msg) = false ->
   forall quality,
     youtube_raises self url quality w msg ->
     fst (download_youtube_video self url quality w)
     = Val (error (if Py.contains "requested format not available" (Py.lower msg)
                   then format_error
                   else "Download failed: " +:+ msg)))
  /\ (Py.any_in instagram_auth_keywords (Py.lower msg) = false ->
      instagram_raises self url w msg ->
      fst (download_instagram_content self url w)
      = Val (error ("Download failed: " +:+ msg))).
Proof.
  split.
  - intros Hany quality Hraise.
    unfold download_youtube_video, format_error. run.
    destruct Hraise as [Hprobe|(i & Hprobe & Hlong & Hdl)]; rewrite Hprobe; run.
    + rewrite Hany. destruct (Py.contains _ (Py.lower msg)); reflexivity.
    + rewrite Hlong. run.
      destruct (ydl_download self (youtube_opts self quality) url (fs w)) as [d' r].
      cbn [snd] in Hdl. subst r. run.
      rewrite Hany. destruct (Py.contains _ (Py.lower msg)); reflexivity.
  - intros Hany Hraise.
    unfold download_instagram_content. run.
    destruct Hraise as [Hprobe|(i & Hprobe & Hdl)]; rewrite Hprobe; run.
    + rewrite Hany. reflexivity.
    + destruct (ydl_download self (instagram_opts self) url (fs w)) as [d' r].
      cbn [snd] in Hdl. subst r. run.
      rewrite Hany. reflexivity.
Qed.

(** ** File names and shown sizes *)

(** [c in s], for one character. *)
Lemma contains_char c s :
  Py.contains (String c "") s = true <-> In c (list_ascii_of_string s).
Proof.
  induction s as [|b s IH]; cbn [Py.contains Py.startswith list_ascii_of_string In].
  - split; [discriminate|tauto].
  - destruct (Ascii.eqb c b) eqn:E.
    + apply Ascii.eqb_eq in E. subst b. tauto.
    + rewrite IH. split; [tauto|]. intros [H|H]; [|exact H].
      subst b. rewrite Ascii.eqb_refl in E. discriminate.
Qed.

Lemma take_chars : forall s n c,
  In c (list_ascii_of_string (Py.take n s)) -> In c (list_ascii_of_string s).
Proof.
  induction s as [|b s IH]; intros n c; cbn [Py.take list_ascii_of_string In];
    [tauto|].
  destruct (Py.is_continuation b).
  - cbn [list_ascii_of_string In]. intros [H|H]; [tauto|].
    right. eapply IH. exact H.
  - destruct n as [|n]; cbn [list_ascii_of_string In]; [tauto|].
    intros [H|H]; [tauto|]. right. eapply IH. exact H.
Qed.

(** A slice [s[:n]] has at most [n] characters. *)
Lemma take_len : forall s n, (Py.len (Py.take n s) <= n)%nat.
Proof.
  induction s as [|b s IH]; intros n; cbn [Py.take Py.len]; [lia|].
  destruct (Py.is_continuation b) eqn:E.
  - cbn [Py.len]. rewrite E. apply IH.
  - destruct n as [|n]; cbn [Py.len]; [lia|]. rewrite E.
    specialize (IH n). lia.
Qed.

Lemma replace_chars a b s c :
  In c (list_ascii_of_string (Py.replace a b s)) ->
  c = b \/ (c <> a /\ In c (list_ascii_of_string s)).
Proof.
  induction s as [|x s IH]; cbn [Py.replace list_ascii_of_string In]; [tauto|].
  intros [H|H].
  - destruct (Ascii.eqb x a) eqn:E; [left; symmetry; exact H|].
    subst c. right. split; [|left; reflexivity].
    intros ->. rewrite Ascii.eqb_refl in E. discriminate.
  - destruct (IH H) as [?|[? ?]]; tauto.
Qed.

(** The first piece of a split holds no separator. *)
Lemma split_head_chars sep s c :
  In c (list_ascii_of_string (List.hd EmptyString (Py.split sep s))) ->
  c <> sep /\ In c (list_ascii_of_string s).
Proof.
  induction s as [|x s IH]; cbn [Py.split List.hd list_ascii_of_string In]; [tauto|].
  destruct (Ascii.eqb x sep) eqn:E; cbn [List.hd list_ascii_of_string In]; [tauto|].
  destruct (Py.split sep s) as [|piece rest] eqn:Hs;
    cbn [List.hd list_ascii_of_string In] in *.
  - intros [H|[]]. subst c. split; [|tauto].
    intros ->. rewrite Ascii.eqb_refl in E. discriminate.
  - intros [H|H].
    + subst c. split; [|tauto]. intros ->. rewrite Ascii.eqb_refl in E. discriminate.
    + destruct (IH H). tauto.
Qed.

(** X4.  The part of the file name made from the format has at most ten
    characters, counted as Python counts them, whatever bytes the format
    holds, and it holds neither a slash nor a plus sign. *)
Theorem quality_suffix_is_a_safe_name_part quality :
  (Py.len (quality_suffix quality) <= 10)%nat
  /\ Py.contains "/" (quality_suffix quality) = false
  /\ Py.contains "+" (quality_suffix quality) = false.
Proof.
  unfold quality_suffix. split; [apply take_len|].
  split.
  - destruct (Py.contains "/" _) eqn:E; [|reflexivity].
    apply contains_char, take_chars, replace_chars in E.
    destruct E as [E|[E _]]; [discriminate E|congruence].
  - destruct (Py.contains "+" _) eqn:E; [|reflexivity].
    apply contains_char, take_chars, replace_chars in E.
    destruct E as [E|[_ E]]; [discriminate E|].
    apply split_head_chars in E. destruct E as [E _]. congruence.
Qed.

Lemma quality_map_known key chain :
  quality_map !! key = Some chain -> In key quality_keys.
Proof.
  intros H. destruct (In_dec String.string_dec key quality_keys) as [Hin|Hout];
    [exact Hin|].
  rewrite (quality_map_unknown _ Hout) in H. discriminate.
Qed.

(** X5.  The file-name parts of the formats of two keys of the quality
    table are equal only for equal keys and for the keys best and 720,
    whose formats both start with 136. *)
Theorem name_discriminator_separates_formats_but_best_and_720 k1 k2 c1 c2 :
  quality_map !! k1 = Some c1 ->
  quality_map !! k2 = Some c2 ->
  (quality_suffix c1 = quality_suffix c2
   <-> k1 = k2 \/ (k1 = "best" /\ k2 = "720") \/ (k1 = "720" /\ k2 = "best")).
Proof.
  intros H1 H2.
  pose proof (quality_map_known _ _ H1) as K1.
  pose proof (quality_map_known _ _ H2) as K2.
  cbn [In quality_keys] in K1, K2.
  destruct K1 as [<-|[<-|[<-|[<-|[<-|[]]]]]];
    destruct K2 as [<-|[<-|[<-|[<-|[<-|[]]]]]];
    vm_compute in H1, H2; injection H1 as <-; injection H2 as <-;
    vm_compute; split; intros H; try discriminate H; auto;
    destruct H as [H|[[H H']|[H H']]]; discriminate.
Qed.

Lemma round_half_even_nearest n d :
  0 < d ->
  Z.abs (2 * (d * round_half_even n d - n)) <= d
  /\ (Z.abs (2 * (d * round_half_even n d - n)) = d ->
      Z.even (round_half_even n d) = true).
Proof.
  intros Hd. unfold round_half_even.
  pose proof (Z.div_mod n d ltac:(lia)) as Hdm.
  pose proof (Z.mod_pos_bound n d Hd) as Hb.
  set (q := n / d) in *. set (r := n mod d) in *.
  destruct (2 * r <? d) eqn:E1; [apply Z.ltb_lt in E1|apply Z.ltb_ge in E1].
  - split; [lia|]. intros H. lia.
  - destruct (d <? 2 * r) eqn:E2; [apply Z.ltb_lt in E2|apply Z.ltb_ge in E2].
    + split; [lia|]. intros H. lia.
    + destruct (Z.even q) eqn:E3.
      * split; [lia|]. intros _. exact E3.
      * split; [lia|]. intros _. rewrite Z.even_add, E3. reflexivity.
Qed.

Lemma round_half_even_nonneg n d : 0 <= n -> 0 < d -> 0 <= round_half_even n d.
Proof.
  intros Hn Hd. unfold round_half_even.
  pose proof (Z.div_pos n d Hn Hd).
  repeat match goal with |- context [if ?b then _ else _] => destruct b end; lia.
Qed.

Lemma digit_char d :
  (d < 10)%N -> digit_value (pretty_N_char d) = Some (Z.of_N d).
Proof.
  intros H.
  assert (d = 0 \/ d = 1 \/ d = 2 \/ d = 3 \/ d = 4 \/ d = 5 \/ d = 6 \/ d = 7
          \/ d = 8 \/ d = 9)%N as Hd by lia.
  repeat (destruct Hd as [->|Hd]; [reflexivity|]). subst d. reflexivity.
Qed.

(** The digits of [x] written in front of a string of digits. *)
Lemma decimal_go x : forall s v m,
  decimal s = Some (v, m) -> 1 <= m ->
  exists m',
    decimal (pretty_N_go x s) = Some (Z.of_N x * m + v, m')
    /\ m <= m' /\ ((0 < x)%N -> 10 * m <= m').
Proof.
  induction (N.lt_wf_0 x) as [x _ IH]. intros s v m Hs Hm.
  destruct (N.eq_dec x 0%N) as [->|Hx].
  - rewrite pretty_N_go_0. exists m. rewrite Hs.
    split; [f_equal; f_equal; lia|]. split; lia.
  - assert (Hpos : (0 < x)%N) by lia.
    rewrite (pretty_N_go_step x s Hpos).
    pose proof (N.mod_lt x 10%N ltac:(lia)) as Hr.
    pose proof (N.div_mod x 10%N ltac:(lia)) as Hdm.
    destruct (IH (x `div` 10)%N (N.div_lt x 10%N Hpos eq_refl)
                (String (pretty_N_char (x `mod` 10)%N) s)
                (Z.of_N (x `mod` 10)%N * m + v) (10 * m))
      as (m' & Hd & Hle & _).
    + cbn [decimal]. rewrite (digit_char _ Hr), Hs. reflexivity.
    + lia.
    + exists m'. rewrite Hd. split; [|split; lia].
      f_equal. f_equal.
      assert (Z.of_N x = 10 * Z.of_N (x `div` 10)%N + Z.of_N (x `mod` 10)%N) as ->
        by lia.
      ring.
Qed.

Lemma decimal_pretty z :
  0 <= z -> exists m, decimal (pretty z) = Some (z, m) /\ 1 < m.
Proof.
  intros Hz. destruct z as [|p|p]; [exists 10; split; [reflexivity|lia]| |lia].
  unfold pretty, pretty_Z, pretty_positive, pretty, pretty_N.
  case_decide; [discriminate|].
  destruct (decimal_go (N.pos p) EmptyString 0 1 eq_refl ltac:(lia))
    as (m' & Hd & _ & Hm).
  exists m'. rewrite Hd. split; [f_equal; f_equal; lia|].
  specialize (Hm ltac:(lia)). lia.
Qed.

Lemma decimal_digit z :
  0 <= z < 10 -> decimal (pretty z) = Some (z, 10).
Proof.
  intros H.
  assert (z = 0 \/ z = 1 \/ z = 2 \/ z = 3 \/ z = 4 \/ z = 5 \/ z = 6 \/ z = 7
          \/ z = 8 \/ z = 9) as Hd by lia.
  repeat (destruct Hd as [->|Hd]; [reflexivity|]). subst z. reflexivity.
Qed.

(** A string of digits holds no dot. *)
Lemma decimal_no_dot s : forall r, decimal s = Some r -> Py.contains "." s = false.
Proof.
  induction s as [|c s IH]; intros r; [reflexivity|].
  cbn [decimal Py.contains Py.startswith].
  destruct (digit_value c) as [d|] eqn:Hc; [|discriminate].
  destruct (decimal s) as [[v m]|] eqn:Hs; [|discriminate].
  intros _. rewrite (IH _ eq_refl).
  destruct (Ascii.eqb "." c) eqn:E; [|reflexivity].
  apply Ascii.eqb_eq in E. subst c. discriminate Hc.
Qed.

Lemma split_whole sep s :
  Py.contains (String sep "") s = false -> Py.split sep s = [s].
Proof.
  induction s as [|c s IH]; intros H; [reflexivity|].
  cbn [Py.split]. cbn [Py.contains Py.startswith] in H.
  destruct (Ascii.eqb sep c) eqn:E; [discriminate|].
  rewrite Ascii.eqb_sym, E. rewrite IH; [reflexivity|].
  destruct (Py.contains (String sep "") s); [destruct s; discriminate|reflexivity].
Qed.

Lemma split_piece sep a b :
  Py.contains (String sep "") a = false ->
  Py.split sep (a +:+ String sep b) = a :: Py.split sep b.
Proof.
  induction a as [|c a IH]; intros H.
  - change (EmptyString +:+ String sep b) with (String sep b).
    cbn [Py.split]. rewrite Ascii.eqb_refl. reflexivity.
  - rewrite append_cons. cbn [Py.split]. cbn [Py.contains Py.startswith] in H.
    destruct (Ascii.eqb sep c) eqn:E; [discriminate|].
    rewrite Ascii.eqb_sym, E. rewrite IH; [reflexivity|].
    destruct (Py.contains (String sep "") a); [destruct a; discriminate|reflexivity].
Qed.

(** X6.  For a size below 2^53 bytes, the size shown in a status text is
    a decimal numeral with one digit after the dot, and the number of
    tenths of a MiB it denotes is the one nearest to the size, the even
    one of the two on a tie. *)
Theorem shown_size_is_nearest_tenth file_size :
  0 <= file_size < 2 ^ 53 ->
  exists tenths,
    tenths_shown (mb file_size) = Some tenths
    /\ Z.abs (2 * (MiB * tenths - 10 * file_size)) <= MiB
    /\ (Z.abs (2 * (MiB * tenths - 10 * file_size)) = MiB -> Z.even tenths = true).
Proof.
  intros [Hsize _].
  pose proof (round_half_even_nonneg (file_size * 10) (1024 * 1024)
                ltac:(lia) ltac:(lia)) as Hpos.
  pose proof (round_half_even_nearest (file_size * 10) (1024 * 1024) ltac:(lia))
    as Hnear.
  unfold mb.
  set (tenths := round_half_even (file_size * 10) (1024 * 1024)) in *.
  exists tenths. split.
  - pose proof (Z.mod_pos_bound tenths 10 ltac:(lia)) as Hfrac.
    destruct (decimal_pretty (tenths / 10) ltac:(apply Z.div_pos; lia))
      as (m & Hwhole & Hm).
    pose proof (decimal_digit _ Hfrac) as Hdigit.
    unfold tenths_shown.
    change ("." +:+ pretty (tenths mod 10))
      with (String "." (pretty (tenths mod 10))).
    rewrite (split_piece "." _ _ (decimal_no_dot _ _ Hwhole)).
    rewrite (split_whole "." _ (decimal_no_dot _ _ Hdigit)).
    rewrite Hwhole, Hdigit.
    replace (1 <? m) with true by (symmetry; apply Z.ltb_lt; exact Hm).
    cbn [andb Z.eqb Pos.eqb]. f_equal.
    pose proof (Z.div_mod tenths 10 ltac:(lia)). lia.
  - replace (10 * file_size) with (file_size * 10) by lia. exact Hnear.
Qed.

(** ** The orchestrators, once more *)

(** X7.  On the small-file path, when the first [n] delivery calls time
    out and the next one, made within the three attempts, succeeds, the
    run makes [n + 1] calls with a pause of 2 seconds after each timeout,
    ends on "Download completed!" and removes the file. *)
Theorem retry_until_delivered self query_data url quality d fp title ty sz w1 n :
  downloaded self url quality d fp title ty sz w1 ->
  sz <= 50 * MiB ->
  (n < 3)%nat ->
  (forall i, (i < n)%nat -> exists m, send self i = Fails m /\ is_timeout m = true) ->
  send self n = Ok tt ->
  let w2 := snd (process_youtube_download self query_data url quality (fresh d)) in
  (exists caption,
      deliveries (log w2) = repeat (Upload (small_call ty) fp caption) (S n))
  /\ pauses (log w2) = repeat 2 n
  /\ last (statuses (log w2)) = Some msg_completed
  /\ removals (log w2) = [fp]
  /\ getsize_in fp (fs w2) = None.
Proof.
  intros [Hdl Hsz] Hrange Hn Hbefore Hok.
  destruct (size_small _ Hrange) as [Hmax H50].
  pose proof (exists_of_size _ _ _ Hsz) as Hex.
  assert (H0 : (0 < n)%nat -> exists m, send self 0 = Fails m /\ is_timeout m = true)
    by (intros; apply Hbefore; lia).
  assert (H1 : (1 < n)%nat -> exists m, send self 1 = Fails m /\ is_timeout m = true)
    by (intros; apply Hbefore; lia).
  clear Hbefore.
  enter Hdl Hsz w1. rewrite Hmax, H50.
  destruct n as [|[|[|n]]]; [| | |lia].
  - clear H0 H1.
    split_advisory sz; destruct ty; small_step Hex; rewrite Hok; small_step Hex;
      observe; cbn [pauses]; repeat split; eauto using getsize_in_removed.
  - clear H1. destruct H0 as (m0 & S0 & T0); [lia|].
    split_advisory sz; destruct ty; small_step Hex;
      rewrite S0; small_step Hex; rewrite T0; small_step Hex;
      rewrite Hok; small_step Hex;
      observe; cbn [pauses]; repeat split; eauto using getsize_in_removed.
  - destruct H0 as (m0 & S0 & T0); [lia|]. destruct H1 as (m1 & S1 & T1); [lia|].
    split_advisory sz; destruct ty; small_step Hex;
      rewrite S0; small_step Hex; rewrite T0; small_step Hex;
      rewrite S1; small_step Hex; rewrite T1; small_step Hex;
      rewrite Hok; small_step Hex;
      observe; cbn [pauses]; repeat split; eauto using getsize_in_removed.
Qed.

(** X8.  On the small-file path, when a delivery call fails with an
    error that is not timeout-flavoured, after timeouts only, no further
    call is made: the run ends on "Upload failed" with the text of the
    error, and leaves the file on the disk. *)
Theorem hard_failure_stops_retrying
    self query_data url quality d fp title ty sz w1 n m :
  downloaded self url quality d fp title ty sz w1 ->
  sz <= 50 * MiB ->
  (n < 3)%nat ->
  (forall i, (i < n)%nat -> exists m', send self i = Fails m' /\ is_timeout m' = true) ->
  send self n = Fails m ->
  is_timeout m = false ->
  let w2 := snd (process_youtube_download self query_data url quality (fresh d)) in
  (exists caption,
      deliveries (log w2) = repeat (Upload (small_call ty) fp caption) (S n))
  /\ last (statuses (log w2)) = Some (msg_failed m sz)
  /\ removals (log w2) = []
  /\ fs w2 = fs w1.
Proof.
  intros [Hdl Hsz] Hrange Hn Hbefore Hfail Hhard.
  destruct (size_small _ Hrange) as [Hmax H50].
  pose proof (exists_of_size _ _ _ Hsz) as Hex.
  assert (H0 : (0 < n)%nat -> exists m, send self 0 = Fails m /\ is_timeout m = true)
    by (intros; apply Hbefore; lia).
  assert (H1 : (1 < n)%nat -> exists m, send self 1 = Fails m /\ is_timeout m = true)
    by (intros; apply Hbefore; lia).
  clear Hbefore.
  enter Hdl Hsz w1. rewrite Hmax, H50.
  destruct n as [|[|[|n]]]; [| | |lia].
  - clear H0 H1.
    split_advisory sz; destruct ty; small_step Hex;
      rewrite Hfail; small_step Hex; rewrite Hhard; small_step Hex;
      observe; repeat split; first [reflexivity | eexists; reflexivity].
  - clear H1. destruct H0 as (m0 & S0 & T0); [lia|].
    split_advisory sz; destruct ty; small_step Hex;
      rewrite S0; small_step Hex; rewrite T0; small_step Hex;
      rewrite Hfail; small_step Hex; rewrite Hhard; small_step Hex;
      observe; repeat split; first [reflexivity | eexists; reflexivity].
  - destruct H0 as (m0 & S0 & T0); [lia|]. destruct H1 as (m1 & S1 & T1); [lia|].
    split_advisory sz; destruct ty; small_step Hex;
      rewrite S0; small_step Hex; rewrite T0; small_step Hex;
      rewrite S1; small_step Hex; rewrite T1; small_step Hex;
      rewrite Hfail; small_step Hex; rewrite Hhard; small_step Hex;
      observe; repeat split; first [reflexivity | eexists; reflexivity].
Qed.

(** X9.  When the adapter returns an error dict, the orchestrator shows
    "Error: " and the message, and does nothing else. *)
Theorem extraction_error_is_shown_and_ends self query_data url quality d e w1 :
  download_youtube_video self url quality (at_download d) = (Val (error e), w1) ->
  process_youtube_download self query_data url quality (fresh d)
  = (Val tt, {| fs := fs w1; log := log w1 ++ [Status (msg_error e)] |}).
Proof.
  intros Hdl. unfold process_youtube_download, fresh. run.
  unfold at_download in Hdl. rewrite Hdl. run. reflexivity.
Qed.

Ltac none_shown :=
  repeat first [solve [constructor] | constructor; [reflexivity|]].

(** X11.  No run of [process_youtube_download] shows the text of line
    530, "Upload failed after 3 attempts": every round of the retry loop
    ends in [break], [continue] or [return], and the last round cannot
    [continue], so the loop never ends with [upload_success] still
    false. *)
Theorem exhausted_attempts_never_reported self query_data url quality d :
  (forall n sz, Py.startswith "❌ Upload failed after" (msg_failed_after n sz) = true)
  /\ Forall (fun text => Py.startswith "❌ Upload failed after" text = false)
       (statuses (log (snd (process_youtube_download self query_data url quality
                              (fresh d))))).
Proof.
  split; [reflexivity|].
  unfold process_youtube_download, fresh. run.
  destruct (download_youtube_video self url quality _) as [r w1] eqn:Hdl.
  destruct (youtube_adapter_log _ _ _ _ _ _ Hdl) as [[x ->] Hlog].
  destruct w1 as [d1 l1]; cbn [fs log app] in Hlog.
  destruct Hlog as [-> | ->]; run;
    (destruct x as [e|fp title ty]; run; [observe; none_shown|]);
    (destruct (getsize_in fp d1) as [sz|] eqn:Hsz; run; [|observe; none_shown]);
    pose proof (exists_of_size _ _ _ Hsz) as Hex;
    (destruct (2 * 1024 * 1024 * 1024 <? sz);
     [|destruct (50 * 1024 * 1024 <? sz)]);
    split_advisory sz; destruct ty; small_step Hex;
    repeat (branch self; small_step Hex); observe; none_shown.
Qed.

Lemma getsize_in_other p q d :
  p <> q ->
  getsize_in p (List.filter (fun e => negb (String.eqb (fst e) q)) d)
  = getsize_in p d.
Proof.
  intros Hne. induction d as [|[r n] d IH]; [reflexivity|].
  cbn [List.filter fst getsize_in].
  destruct (String.eqb r q) eqn:E; cbn [negb getsize_in].
  - apply String.eqb_eq in E. subst r.
    destruct (String.eqb q p) eqn:E'; [|exact IH].
    apply String.eqb_eq in E'. congruence.
  - rewrite IH. reflexivity.
Qed.

(** X12.  The warning "File is larger than expected" is shown exactly
    when the size is above one and a half times the size expected for
    the key of the callback data, and it does not end the run: a file
    of at most 2 GiB still gets a delivery call. *)
Theorem size_warning_is_advisory self query_data url quality d fp title ty sz w1 :
  downloaded self url quality d fp title ty sz w1 ->
  let w2 := snd (process_youtube_download self query_data url quality (fresh d)) in
  let expected_mb := expected_mb_of query_data in
  List.filter (Py.startswith "⚠") (statuses (log w2))
  = (if 3 * (expected_mb * 1024 * 1024) <? 2 * sz
     then [msg_larger_than_expected sz expected_mb] else [])
  /\ (sz <= 2 * GiB -> (1 <= uploads (log w2))%nat).
Proof.
  intros [Hdl Hsz]. cbv zeta. unfold expected_mb_of, quality_key_of.
  pose proof (exists_of_size _ _ _ Hsz) as Hex.
  enter Hdl Hsz w1.
  destruct (2 * 1024 * 1024 * 1024 <? sz) eqn:Hmax;
    [|destruct (50 * 1024 * 1024 <? sz)];
    split_advisory sz; destruct ty; small_step Hex;
    repeat (branch self; small_step Hex); observe;
    (split; [reflexivity|]); intros Hle;
    first [lia | apply Z.ltb_lt in Hmax; unfold GiB in Hle; lia].
Qed.

(** X13.  After a successful download, [process_youtube_download]
    either leaves the disk as it was or removes the downloaded file,
    once, as its last step and after a delivery call; no other file
    changes. *)
Theorem only_the_downloaded_file_is_removed
    self query_data url quality d fp title ty sz w1 :
  downloaded self url quality d fp title ty sz w1 ->
  let w2 := snd (process_youtube_download self query_data url quality (fresh d)) in
  (removals (log w2) = [] /\ fs w2 = fs w1)
  \/ (removals (log w2) = [fp]
      /\ last (log w2) = Some (Remove fp)
      /\ (1 <= uploads (log w2))%nat
      /\ getsize_in fp (fs w2) = None
      /\ forall p, p <> fp -> getsize_in p (fs w2) = getsize_in p (fs w1)).
Proof.
  intros [Hdl Hsz].
  pose proof (exists_of_size _ _ _ Hsz) as Hex.
  enter Hdl Hsz w1.
  destruct (2 * 1024 * 1024 * 1024 <? sz);
    [|destruct (50 * 1024 * 1024 <? sz)];
    split_advisory sz; destruct ty; small_step Hex;
    repeat (branch self; small_step Hex); observe;
    first [ left; split; reflexivity
          | right; repeat split;
            first [reflexivity | lia | apply getsize_in_removed
                  | intros p Hp; apply getsize_in_other; exact Hp] ].
Qed.

(** X14.  [process_instagram_download] removes the downloaded file
    exactly when the file is at most 50 MiB and the delivery call
    succeeds; otherwise the disk is as the adapter left it. *)
Theorem instagram_file_removed_only_when_delivered self url d fp title ty sz w1 :
  instagram_downloaded self url d fp title ty sz w1 ->
  let w2 := snd (process_instagram_download self url (fresh d)) in
  match 50 * 1024 * 1024 <? sz, send self 0 with
  | false, Ok _ =>
      removals (log w2) = [fp] /\ last (log w2) = Some (Remove fp)
      /\ getsize_in fp (fs w2) = None
  | _, _ => removals (log w2) = [] /\ fs w2 = fs w1
  end.
Proof.
  intros [Hdl Hsz].
  pose proof (exists_of_size _ _ _ Hsz) as Hex.
  enter_instagram Hdl Hsz w1.
  destruct (50 * 1024 * 1024 <? sz); run; rewrite ?Hex; observe;
    destruct (send self 0) as [[]|m]; run; rewrite ?Hex; observe;
    repeat split; apply getsize_in_removed.
Qed.

(** ** Button presses and incoming messages *)

(** A call whose body is wrapped in a handler that swallows every
    exception always returns. *)
Lemma call_try_returns (body : M unit) (handler : exn -> M unit) :
  (forall e w, fst (handler e w) = Val tt) ->
  forall w, fst (call (try_except body handler) w) = Val tt.
Proof.
  intros Hh w. unfold call, try_except.
  destruct (body w) as [[[]| |e] w']; try reflexivity.
  specialize (Hh e w'). destruct (handler e w') as [[[]| |e'] w''];
    cbn [fst] in *; congruence.
Qed.

Lemma process_youtube_download_returns self query_data url quality w :
  fst (process_youtube_download self query_data url quality w) = Val tt.
Proof.
  unfold process_youtube_download. apply call_try_returns.
  intros [] w'; reflexivity.
Qed.

Lemma process_instagram_download_returns self url w :
  fst (process_instagram_download self url w) = Val tt.
Proof.
  unfold process_instagram_download. apply call_try_returns.
  intros [] w'; reflexivity.
Qed.

(** The pieces of [split] and of [splitn] agree before the last cut. *)
Lemma split_nonempty sep s : Py.split sep s <> [].
Proof.
  destruct s as [|c s]; cbn [Py.split]; [discriminate|].
  destruct (Ascii.eqb c sep); [discriminate|].
  destruct (Py.split sep s); discriminate.
Qed.

Lemma splitn_0 sep s : Py.splitn sep 0 s = [s].
Proof. destruct s; reflexivity. Qed.

Lemma splitn_nonempty sep n s : Py.splitn sep n s <> [].
Proof.
  destruct n as [|n]; [rewrite splitn_0; discriminate|].
  destruct s as [|c s]; cbn [Py.splitn]; [discriminate|].
  destruct (Ascii.eqb c sep); [discriminate|].
  destruct (Py.splitn sep (S n) s); discriminate.
Qed.

Lemma splitn_split_lookup sep s : forall n i,
  (i < n)%nat -> Py.splitn sep n s !! i = Py.split sep s !! i.
Proof.
  induction s as [|c s IH]; intros [|n] i Hi; try lia; [reflexivity|].
  cbn [Py.splitn Py.split].
  destruct (Ascii.eqb c sep).
  - destruct i as [|i]; [reflexivity|].
    change (Py.splitn sep n s !! i = Py.split sep s !! i). apply IH. lia.
  - pose proof (IH (S n)) as IH'.
    destruct (Py.splitn sep (S n) s) as [|p1 r1] eqn:E1;
      [exfalso; eapply splitn_nonempty; exact E1|].
    destruct (Py.split sep s) as [|p2 r2] eqn:E2;
      [exfalso; eapply split_nonempty; exact E2|].
    destruct i as [|i].
    + specialize (IH' 0%nat ltac:(lia)). simpl in IH'. injection IH' as ->.
      reflexivity.
    + specialize (IH' (S i) ltac:(lia)). exact IH'.
Qed.

(** More than one piece means that the separator occurs. *)
Lemma splitn_two_pieces sep s : forall n p q rest,
  Py.splitn sep n s = p :: q :: rest -> Py.contains (String sep "") s = true.
Proof.
  induction s as [|c s IH]; intros [|n] p q rest; cbn [Py.splitn];
    try discriminate.
  destruct (Ascii.eqb c sep) eqn:E.
  - intros _. apply startswith_contains. cbn [Py.startswith].
    rewrite Ascii.eqb_sym, E. reflexivity.
  - destruct (Py.splitn sep (S n) s) as [|p1 r1] eqn:E1; [discriminate|].
    intros [= <- ->]. apply contains_tail. eapply IH. exact E1.
Qed.

Lemma pressed_key data p key rest :
  Py.splitn "_" 2 data = p :: key :: rest -> quality_key_of data = key.
Proof.
  intros H. unfold quality_key_of.
  rewrite (splitn_two_pieces _ _ _ _ _ _ H).
  rewrite <- (splitn_split_lookup "_" data 2 1 ltac:(lia)), H. reflexivity.
Qed.

Lemma button_callback_known self data p key url rest chain w :
  Py.startswith "yt_" data = true ->
  Py.splitn "_" 2 data = p :: key :: url :: rest ->
  quality_map !! key = Some chain ->
  button_callback self data w
  = process_youtube_download self data url chain (pressed w).
Proof.
  intros Hyt Hparts Hkey.
  pose proof (process_youtube_download_returns self data url chain (pressed w)) as Hr.
  unfold button_callback. run. rewrite Hyt, Hparts.
  cbn [lookup list_lookup]. run. cbn [fst snd]. rewrite Hkey. run.
  rewrite <- app_assoc. cbn [app]. unfold pressed in Hr.
  destruct (process_youtube_download self data url chain _) as [r w'].
  cbn [fst] in Hr. subst r. reflexivity.
Qed.

(** A key without underscore is cut off whole. *)
Lemma splitn_piece key : forall n rest,
  Py.contains "_" key = false ->
  Py.splitn "_" (S n) (key +:+ "_" +:+ rest) = key :: Py.splitn "_" n rest.
Proof.
  induction key as [|c key IH]; intros n rest Hkey.
  - reflexivity.
  - rewrite append_cons. cbn [Py.splitn].
    cbn [Py.contains Py.startswith] in Hkey.
    destruct (Ascii.eqb "_" c) eqn:E; [discriminate|].
    rewrite Ascii.eqb_sym, E.
    rewrite IH; [reflexivity|].
    destruct (Py.contains "_" key); [destruct key; discriminate|reflexivity].
Qed.

(** A text without underscore is one piece. *)
Lemma splitn_whole n : forall s,
  Py.contains "_" s = false -> Py.splitn "_" n s = [s].
Proof.
  intros s. destruct n as [|n]; [intros _; apply splitn_0|].
  induction s as [|c s IH]; intros H; [reflexivity|].
  cbn [Py.splitn]. cbn [Py.contains Py.startswith] in H.
  destruct (Ascii.eqb "_" c) eqn:E; [discriminate|].
  rewrite Ascii.eqb_sym, E. rewrite IH; [reflexivity|].
  destruct (Py.contains "_" s); [destruct s; discriminate|reflexivity].
Qed.

(** X15.  [button_callback] acts on callback data by its shape.  Data
    that does not start with "yt_" is answered and otherwise ignored.
    Data that starts with "yt_" and holds no further underscore has no
    URL part: the [IndexError] of [parts[2]] is caught, "Error: Invalid
    button data" is shown, and neither the quality table is consulted
    nor a download started. *)
Theorem malformed_button_data_starts_nothing self w :
  (forall data,
      Py.startswith "yt_" data = false ->
      snd (button_callback self data w)
      = {| fs := fs w; log := log w ++ [Answer] |})
  /\ (forall rest,
         Py.contains "_" rest = false ->
         Py.splitn "_" 2 ("yt_" +:+ rest) = ["yt"; rest]
         /\ snd (button_callback self ("yt_" +:+ rest) w)
            = {| fs := fs w;
                 log := log w ++ [Answer; Status "❌ Error: Invalid button data"] |}).
Proof.
  split.
  - intros data Hyt. unfold button_callback. run. rewrite Hyt. run. reflexivity.
  - intros rest Hrest.
    assert (Hparts : Py.splitn "_" 2 ("yt_" +:+ rest) = ["yt"; rest]).
    { change ("yt_" +:+ rest) with ("yt" +:+ "_" +:+ rest).
      rewrite (splitn_piece "yt" 1 _ eq_refl), (splitn_whole 1 _ Hrest).
      reflexivity. }
    split; [exact Hparts|].
    unfold button_callback. run.
    change (Py.startswith "yt_" ("yt_" +:+ rest)) with true. cbv iota.
    rewrite Hparts. cbn [lookup list_lookup]. run.
    rewrite <- app_assoc. reflexivity.
Qed.

(** X16.  Callback data built as "yt_", a key without underscore, "_"
    and a URL parses back to that key and that URL, underscores in the
    URL included; the key used for the expected size is the same. *)
Theorem callback_data_round_trip key url :
  Py.contains "_" key = false ->
  Py.startswith "yt_" ("yt_" +:+ key +:+ "_" +:+ url) = true
  /\ Py.splitn "_" 2 ("yt_" +:+ key +:+ "_" +:+ url) = ["yt"; key; url]
  /\ quality_key_of ("yt_" +:+ key +:+ "_" +:+ url) = key.
Proof.
  intros Hkey.
  assert (Hparts : Py.splitn "_" 2 ("yt_" +:+ key +:+ "_" +:+ url) = ["yt"; key; url]).
  { change ("yt_" +:+ key +:+ "_" +:+ url)
      with ("yt" +:+ "_" +:+ (key +:+ "_" +:+ url)).
    rewrite (splitn_piece "yt" 1 _ eq_refl), (splitn_piece key 0 _ Hkey), splitn_0.
    reflexivity. }
  split; [reflexivity|]. split; [exact Hparts|].
  eapply pressed_key. exact Hparts.
Qed.

Lemma host_in host hosts :
  existsb (String.eqb host) hosts = true <-> In host hosts.
Proof.
  rewrite existsb_exists. split.
  - intros (h & Hin & E). apply String.eqb_eq in E. subst h. exact Hin.
  - intros Hin. exists host. split; [exact Hin|apply String.eqb_refl].
Qed.

Lemma button_parts key url :
  In key quality_keys ->
  Py.startswith "yt_" ("yt_" +:+ key +:+ "_" +:+ url) = true
  /\ Py.splitn "_" 2 ("yt_" +:+ key +:+ "_" +:+ url) = ["yt"; key; url].
Proof.
  intros Hin.
  assert (Hkey : Py.contains "_" key = false).
  { cbn [In quality_keys] in Hin.
    destruct Hin as [<-|[<-|[<-|[<-|[<-|[]]]]]]; reflexivity. }
  split; [reflexivity|].
  change ("yt_" +:+ key +:+ "_" +:+ url)
    with ("yt" +:+ "_" +:+ (key +:+ "_" +:+ url)).
  rewrite (splitn_piece "yt" 1 _ eq_refl), (splitn_piece key 0 _ Hkey), splitn_0.
  reflexivity.
Qed.

Lemma quality_map_total key :
  In key quality_keys -> exists chain, quality_map !! key = Some chain.
Proof.
  cbn [In quality_keys].
  intros [<-|[<-|[<-|[<-|[<-|[]]]]]]; eexists; reflexivity.
Qed.

(** X17.  For a link to a YouTube host, [handle_url] replies with the
    quality keyboard and starts nothing; pressing any of its buttons
    makes [button_callback] run [process_youtube_download] on the same
    URL with a format of the quality table. *)
Theorem offered_buttons_resolve self netloc url w host :
  Py.startswith "http://" url || Py.startswith "https://" url = true ->
  netloc url = Ok host ->
  In host youtube_hosts ->
  handle_url self netloc url w
  = (Val (quality_keyboard url),
     {| fs := fs w; log := log w ++ [Status "Choose download quality:"] |})
  /\ forall label data,
       In (label, data) (quality_keyboard url) ->
       exists key chain,
         data = "yt_" +:+ key +:+ "_" +:+ url
         /\ quality_map !! key = Some chain
         /\ quality_key_of data = key
         /\ forall v,
              button_callback self data v
              = process_youtube_download self data url chain (pressed v).
Proof.
  intros Hhttp Hnet Hhost. split.
  - unfold handle_url, is_youtube_url. rewrite Hhttp, Hnet. cbn [negb]. run.
    rewrite (proj2 (host_in _ _) Hhost). run. reflexivity.
  - intros label data Hin.
    assert (Hkey : exists key, In key quality_keys
                               /\ data = "yt_" +:+ key +:+ "_" +:+ url).
    { cbn [In quality_keyboard] in Hin.
      destruct Hin as [H|[H|[H|[H|[H|[]]]]]]; injection H as _ <-;
        [exists "best"|exists "1080"|exists "720"|exists "480"|exists "audio"];
        (split; [cbn [In quality_keys]; auto 10|reflexivity]). }
    destruct Hkey as (key & Hk & ->).
    destruct (quality_map_total _ Hk) as [chain Hchain].
    destruct (button_parts key url Hk) as [Hyt Hparts].
    exists key, chain. split; [reflexivity|]. split; [exact Hchain|].
    split; [eapply pressed_key; exact Hparts|].
    intros v. eapply button_callback_known; eassumption.
Qed.

(** X18.  [handle_url] answers a text that does not start with http://
    or https:// with one request for a valid URL; a [ValueError] of
    [urlparse] escapes without a reply; a link to an Instagram host
    starts the Instagram flow; any other host gets "Unsupported URL". *)
Theorem handle_url_other_outcomes self netloc url w :
  (Py.startswith "http://" url || Py.startswith "https://" url = false ->
   handle_url self netloc url w
   = (Val [],
      {| fs := fs w;
         log := log w
                ++ [Status "Please send a valid URL starting with http:// or https://"] |}))
  /\ (Py.startswith "http://" url || Py.startswith "https://" url = true ->
      (forall msg,
          netloc url = Fails msg ->
          handle_url self netloc url w = (Raise (Error msg), w))
      /\ (forall host,
             netloc url = Ok host ->
             (In host instagram_hosts ->
              handle_url self netloc url w
              = (Val [],
                 snd (process_instagram_download self url
                        {| fs := fs w;
                           log := log w ++ [Status "📥 Starting Instagram download..."] |})))
             /\ (~ In host youtube_hosts -> ~ In host instagram_hosts ->
                 handle_url self netloc url w
                 = (Val [],
                    {| fs := fs w;
                       log := log w
                              ++ [Status "❌ Unsupported URL. Please send a YouTube or Instagram link."] |})))).
Proof.
  split; [|intros Hhttp; split].
  - intros Hhttp. unfold handle_url. rewrite Hhttp. run. reflexivity.
  - intros msg Hnet. unfold handle_url, is_youtube_url. rewrite Hhttp, Hnet. cbn [negb]. run.
    reflexivity.
  - intros host Hnet. split.
    + intros Hig.
      assert (Hyt : existsb (String.eqb host) youtube_hosts = false).
      { cbn [In instagram_hosts] in Hig. destruct Hig as [<-|[<-|[]]]; reflexivity. }
      pose proof (process_instagram_download_returns self url
                    {| fs := fs w;
                       log := log w ++ [Status "📥 Starting Instagram download..."] |})
        as Hr.
      unfold handle_url, is_youtube_url, is_instagram_url. rewrite Hhttp, Hnet. cbn [negb]. run.
      rewrite Hyt. run. rewrite (proj2 (host_in _ _) Hig). run.
      destruct (process_instagram_download self url _) as [r w'].
      cbn [fst snd] in *. subst r. reflexivity.
    + intros Hyt Hig.
      assert (Hy : existsb (String.eqb host) youtube_hosts = false).
      { destruct (existsb _ youtube_hosts) eqn:E; [|reflexivity].
        apply host_in in E. contradiction. }
      assert (Hi : existsb (String.eqb host) instagram_hosts = false).
      { destruct (existsb _ instagram_hosts) eqn:E; [|reflexivity].
        apply host_in in E. contradiction. }
      unfold handle_url, is_youtube_url, is_instagram_url. rewrite Hhttp, Hnet. cbn [negb]. run.
      rewrite Hy. run. rewrite Hi. run. reflexivity.
Qed.

(** ** Cookie files *)

Lemma replace_pair_other a b new c s :
  Ascii.eqb c a = false ->
  replace_pair a b new (String c s) = String c (replace_pair a b new s).
Proof.
  intros H. destruct s as [|c' s]; [reflexivity|].
  cbn [replace_pair]. rewrite H. reflexivity.
Qed.

Lemma replace_pair_step a b new c c' t :
  replace_pair a b new (String c (String c' t))
  = if Ascii.eqb c a && Ascii.eqb c' b
    then String new (replace_pair a b new t)
    else String c (replace_pair a b new (String c' t)).
Proof. reflexivity. Qed.

Lemma escape_cons c s :
  escape_for_env (String c s)
  = if Ascii.eqb c newline then String backslash (String "n" (escape_for_env s))
    else if Ascii.eqb c dquote then String backslash (String dquote (escape_for_env s))
    else String c (escape_for_env s).
Proof.
  unfold escape_for_env. cbn [replace_char].
  destruct (Ascii.eqb c newline) eqn:E1.
  - reflexivity.
  - cbn [replace_char]. destruct (Ascii.eqb c dquote); reflexivity.
Qed.

(** The escaped text starts with the letter n only when the text does. *)
Lemma escape_head_n s :
  match escape_for_env s with String c _ => Ascii.eqb c "n" | EmptyString => false end
  = match s with String c _ => Ascii.eqb c "n" | EmptyString => false end.
Proof.
  destruct s as [|c s]; [reflexivity|]. rewrite escape_cons.
  destruct (Ascii.eqb c newline) eqn:E1.
  - apply Ascii.eqb_eq in E1. subst c. reflexivity.
  - destruct (Ascii.eqb c dquote) eqn:E2; [|reflexivity].
    apply Ascii.eqb_eq in E2. subst c. reflexivity.
Qed.

(** What the loader rebuilds from the converter's output is the original
    text exactly when that text is plain. *)
Lemma round_trip_iff_plain content :
  replace_pair backslash "n" newline (escape_for_env content) = content
  <-> plain content = true.
Proof.
  induction content as [|c s IH]; [split; reflexivity|].
  rewrite escape_cons. cbn [plain].
  destruct (Ascii.eqb c newline) eqn:E1.
  - apply Ascii.eqb_eq in E1. subst c.
    change (replace_pair backslash "n" newline
              (String backslash (String "n" (escape_for_env s))))
      with (String newline (replace_pair backslash "n" newline (escape_for_env s))).
    change (Ascii.eqb newline dquote) with false.
    change (Ascii.eqb newline backslash) with false.
    cbn [negb andb]. rewrite <- IH. split; [intros [= H]; exact H|intros ->; reflexivity].
  - destruct (Ascii.eqb c dquote) eqn:E2.
    + apply Ascii.eqb_eq in E2. subst c. cbn [negb andb].
      split; [|discriminate].
      change (replace_pair backslash "n" newline
                (String backslash (String dquote (escape_for_env s))))
        with (String backslash
                (replace_pair backslash "n" newline (String dquote (escape_for_env s)))).
      intros [=].
    + cbn [negb andb].
      destruct (Ascii.eqb c backslash) eqn:E3.
      * apply Ascii.eqb_eq in E3. subst c. cbn [andb].
        pose proof (escape_head_n s) as Hn.
        destruct (escape_for_env s) as [|c' t] eqn:Ees.
        -- destruct s as [|c'' s']; [|rewrite escape_cons in Ees;
             destruct (Ascii.eqb c'' newline); [discriminate|];
             destruct (Ascii.eqb c'' dquote); discriminate].
           split; reflexivity.
        -- rewrite replace_pair_step, Ascii.eqb_refl. cbn [andb].
           rewrite Hn.
           destruct s as [|c'' s']; [discriminate|].
           destruct (Ascii.eqb c'' "n") eqn:E4; cbn [negb andb].
           ++ split; [intros [=]|discriminate].
           ++ rewrite <- IH. split; [intros [= H]; exact H|intros ->; reflexivity].
      * cbn [andb negb]. rewrite replace_pair_other by exact E3.
        rewrite <- IH. split; [intros [= H]; exact H|intros ->; reflexivity].
Qed.

Lemma cookies_from_env_kept variable path can_open store p c :
  store !! p = Some c ->
  cookies_from_env variable path can_open store !! p = Some c.
Proof.
  intros H. unfold cookies_from_env.
  destruct variable as [content|]; [|exact H].
  destruct (negb (String.eqb content "")); cbn [andb]; [|exact H].
  case_bool_decide as Hfile; cbn [negb]; [exact H|].
  destruct can_open; [|exact H].
  rewrite lookup_insert_ne; [exact H|].
  intros ->. apply Hfile. rewrite H. eauto.
Qed.

Lemma cookies_from_env_elsewhere variable path can_open store p :
  p <> path ->
  cookies_from_env variable path can_open store !! p = store !! p.
Proof.
  intros H. unfold cookies_from_env.
  destruct variable as [content|]; [|reflexivity].
  destruct (_ && _); [|reflexivity].
  destruct can_open; [|reflexivity].
  apply lookup_insert_ne. congruence.
Qed.

Lemma cookies_from_env_unset variable path can_open store :
  variable = None \/ variable = Some EmptyString ->
  cookies_from_env variable path can_open store = store.
Proof. intros [-> | ->]; reflexivity. Qed.

(** X20.  [setup_cookies_from_env] keeps every file that exists with its
    content, touches no path but the two cookie files, and writes
    nothing when both variables are unset or empty. *)
Theorem existing_cookie_files_are_kept self env_vars can_open store :
  (forall p c,
      store !! p = Some c ->
      setup_cookies_from_env self env_vars can_open store !! p = Some c)
  /\ (forall p,
         p <> youtube_cookies self -> p <> instagram_cookies self ->
         setup_cookies_from_env self env_vars can_open store !! p = store !! p)
  /\ ((YOUTUBE_COOKIES env_vars = None \/ YOUTUBE_COOKIES env_vars = Some EmptyString) ->
      (INSTAGRAM_COOKIES env_vars = None
       \/ INSTAGRAM_COOKIES env_vars = Some EmptyString) ->
      setup_cookies_from_env self env_vars can_open store = store).
Proof.
  unfold setup_cookies_from_env. split; [|split].
  - intros p c H. apply cookies_from_env_kept, cookies_from_env_kept. exact H.
  - intros p Hy Hi. rewrite !cookies_from_env_elsewhere by assumption. reflexivity.
  - intros Hy Hi. rewrite (cookies_from_env_unset _ _ _ _ Hy).
    apply cookies_from_env_unset. exact Hi.
Qed.

Lemma escape_not_empty content :
  content <> EmptyString -> String.eqb (escape_for_env content) EmptyString = false.
Proof.
  destruct content as [|c s]; [congruence|]. intros _. rewrite escape_cons.
  destruct (Ascii.eqb c newline); [reflexivity|].
  destruct (Ascii.eqb c dquote); reflexivity.
Qed.

Lemma cookies_from_env_written content path store :
  content <> EmptyString ->
  store !! path = None ->
  cookies_from_env (Some (escape_for_env content)) path true store !! path
  = Some (replace_pair backslash "n" newline (escape_for_env content)).
Proof.
  intros Hne Hnone. unfold cookies_from_env.
  rewrite (escape_not_empty _ Hne). cbn [negb andb].
  case_bool_decide as Hfile; [rewrite Hnone in Hfile; destruct Hfile; discriminate|].
  cbn [negb]. apply lookup_insert_eq.
Qed.

(** X19.  When a variable holds the output of [escape_for_env] for a
    non-empty cookie text and the file is missing and writable, the file
    [setup_cookies_from_env] writes equals the original text exactly when
    that text holds no double quote and no backslash followed by n. *)
Theorem deployed_cookies_match_iff_plain self env_vars can_open store content :
  content <> EmptyString ->
  (YOUTUBE_COOKIES env_vars = Some (escape_for_env content) ->
   store !! youtube_cookies self = None ->
   can_open (youtube_cookies self) = true ->
   (setup_cookies_from_env self env_vars can_open store !! youtube_cookies self
    = Some content
    <-> plain content = true))
  /\ (INSTAGRAM_COOKIES env_vars = Some (escape_for_env content) ->
      store !! instagram_cookies self = None ->
      can_open (instagram_cookies self) = true ->
      youtube_cookies self <> instagram_cookies self ->
      (setup_cookies_from_env self env_vars can_open store !! instagram_cookies self
       = Some content
       <-> plain content = true)).
Proof.
  intros Hne. unfold setup_cookies_from_env. split.
  - intros Hvar Hnone Hopen. rewrite Hvar, Hopen.
    pose proof (cookies_from_env_written content _ store Hne Hnone) as Hw.
    rewrite (cookies_from_env_kept _ _ _ _ _ _ Hw).
    rewrite <- round_trip_iff_plain. split; [intros [= H]; exact H|intros ->; reflexivity].
  - intros Hvar Hnone Hopen Hpaths. rewrite Hvar, Hopen.
    rewrite cookies_from_env_written; [|exact Hne|].
    + rewrite <- round_trip_iff_plain.
      split; [intros [= H]; exact H|intros ->; reflexivity].
    + rewrite cookies_from_env_elsewhere by congruence. exact Hnone.
Qed.

(** ** The further properties at sample requests *)

Lemma timeouts_before (answers : nat -> answer unit) n :
  (n <= 1)%nat ->
  answers 0%nat = Fails "Timed out" ->
  forall i, (i < n)%nat ->
    exists m, answers i = Fails m /\ is_timeout m = true.
Proof.
  intros Hn H0 i Hi. assert (i = 0%nat) as -> by lia.
  exists "Timed out". split; [exact H0|reflexivity].
Defined.

(** X2, on the 10 MiB video. *)
Lemma returned_file_is_on_disk_witness :
  download_youtube_video (Runs.small_bot Demo.always_ok) Demo.url Demo.q720
    (at_download [])
  = (Val (success Runs.small_file "Clip" video),
     Runs.handed_over (Runs.small_bot Demo.always_ok))
  /\ Py.startswith "/tmp/tmpk3x9/" Runs.small_file = true.
Proof.
  assert (H : download_youtube_video (Runs.small_bot Demo.always_ok) Demo.url
                Demo.q720 (at_download [])
              = (Val (success Runs.small_file "Clip" video),
                 Runs.handed_over (Runs.small_bot Demo.always_ok)))
    by reflexivity.
  split; [exact H|].
  exact (proj2 (proj1 (returned_file_is_on_disk _ _ _ _ _ _ _) _ H)).
Defined.

(** X3, on a video whose format is not available. *)
Lemma other_failures_by_platform_witness :
  Py.any_in youtube_auth_keywords (Py.lower Samples.no_format) = false
  /\ youtube_raises Samples.no_format_bot Demo.url Demo.q720 (at_download [])
       Samples.no_format
  /\ fst (download_youtube_video Samples.no_format_bot Demo.url Demo.q720
            (at_download []))
     = Val (error format_error).
Proof.
  assert (K : Py.any_in youtube_auth_keywords (Py.lower Samples.no_format) = false)
    by reflexivity.
  assert (R : youtube_raises Samples.no_format_bot Demo.url Demo.q720
                (at_download []) Samples.no_format)
    by (left; reflexivity).
  split; [exact K|]. split; [exact R|].
  exact (proj1 (other_failures_by_platform _ _ _ _) K _ R).
Defined.

(** X5, on the keys best and 720. *)
Lemma name_discriminator_witness :
  quality_map !! "best" = Some "136+140/best[height<=720]/18"
  /\ quality_map !! "720" = Some "136+140/best[height<=720]/134+140"
  /\ quality_suffix "136+140/best[height<=720]/18"
     = quality_suffix "136+140/best[height<=720]/134+140".
Proof.
  split; [reflexivity|]. split; [reflexivity|].
  apply (name_discriminator_separates_formats_but_best_and_720 "best" "720"
           _ _ eq_refl eq_refl).
  right. left. split; reflexivity.
Defined.

(** X6, on a file of 52428801 bytes, one byte above 50 MiB: it is shown
    as 50.0 MB. *)
Lemma shown_size_is_nearest_tenth_witness :
  0 <= 52428801 < 2 ^ 53
  /\ mb 52428801 = "50.0"
  /\ exists tenths, tenths_shown (mb 52428801) = Some tenths.
Proof.
  assert (R : 0 <= 52428801 < 2 ^ 53) by (split; [lia|reflexivity]).
  split; [exact R|]. split; [reflexivity|].
  destruct (shown_size_is_nearest_tenth 52428801 R) as (tenths & H & _).
  exists tenths. exact H.
Defined.

(** X7, on the 10 MiB video delivered at the second attempt. *)
Lemma retry_until_delivered_witness :
  downloaded (Runs.small_bot Samples.second_try) Demo.url Demo.q720 []
    Runs.small_file "Clip" video (10 * MiB)
    (Runs.handed_over (Runs.small_bot Samples.second_try))
  /\ uploads (log (Runs.small_run Samples.second_try)) = 2%nat
  /\ pauses (log (Runs.small_run Samples.second_try)) = [2]
  /\ last (statuses (log (Runs.small_run Samples.second_try))) = Some msg_completed
  /\ removals (log (Runs.small_run Samples.second_try)) = [Runs.small_file].
Proof.
  split; [apply small_download|]. split; [reflexivity|].
  assert (R : 10 * MiB <= 50 * MiB) by (unfold MiB; lia).
  assert (N : (1 < 3)%nat) by lia.
  destruct (retry_until_delivered _ Demo.data720 _ _ _ _ _ _ _ _ 1
              (small_download Samples.second_try) R N
              (timeouts_before Samples.second_try 1 (le_n 1) eq_refl) eq_refl)
    as (_ & Hp & Hs & Hr & _).
  auto.
Defined.

(** X8, on the 10 MiB video rejected at the second attempt. *)
Lemma hard_failure_stops_retrying_witness :
  downloaded (Runs.small_bot Samples.second_rejects) Demo.url Demo.q720 []
    Runs.small_file "Clip" video (10 * MiB)
    (Runs.handed_over (Runs.small_bot Samples.second_rejects))
  /\ is_timeout "Bad Gateway" = false
  /\ uploads (log (Runs.small_run Samples.second_rejects)) = 2%nat
  /\ last (statuses (log (Runs.small_run Samples.second_rejects)))
     = Some (msg_failed "Bad Gateway" (10 * MiB))
  /\ removals (log (Runs.small_run Samples.second_rejects)) = [].
Proof.
  split; [apply small_download|]. split; [reflexivity|]. split; [reflexivity|].
  assert (R : 10 * MiB <= 50 * MiB) by (unfold MiB; lia).
  assert (N : (1 < 3)%nat) by lia.
  destruct (hard_failure_stops_retrying _ Demo.data720 _ _ _ _ _ _ _ _ 1
              "Bad Gateway" (small_download Samples.second_rejects) R N
              (timeouts_before Samples.second_rejects 1 (le_n 1) eq_refl)
              eq_refl eq_refl)
    as (_ & Hs & Hr & _).
  auto.
Defined.

(** X9, on a video whose format is not available. *)
Lemma extraction_error_is_shown_and_ends_witness :
  download_youtube_video Samples.no_format_bot Demo.url Demo.q720 (at_download [])
  = (Val (error format_error), Samples.after_no_format)
  /\ statuses
       (log (snd (process_youtube_download Samples.no_format_bot Demo.data720
                    Demo.url Demo.q720 (fresh []))))
     = [msg_downloading; msg_error format_error].
Proof.
  assert (H : download_youtube_video Samples.no_format_bot Demo.url Demo.q720
                (at_download [])
              = (Val (error format_error), Samples.after_no_format))
    by reflexivity.
  split; [exact H|].
  rewrite (extraction_error_is_shown_and_ends _ Demo.data720 _ _ _ _ _ H).
  reflexivity.
Defined.

(** X12, on the 120 MiB video requested at 720p. *)
Lemma size_warning_is_advisory_witness :
  downloaded (Runs.large_bot Demo.always_ok) Demo.url Demo.q720 []
    Runs.small_file "Clip" video (120 * MiB)
    (Runs.handed_over (Runs.large_bot Demo.always_ok))
  /\ expected_mb_of Demo.data720 = 50
  /\ List.filter (Py.startswith "⚠") (statuses (log (Runs.large_run Demo.always_ok)))
     = [msg_larger_than_expected (120 * MiB) 50].
Proof.
  split; [apply large_download|]. split; [reflexivity|].
  exact (proj1 (size_warning_is_advisory _ Demo.data720 _ _ _ _ _ _ _ _
                  (large_download Demo.always_ok))).
Defined.

(** X13, on the 120 MiB video that is delivered. *)
Lemma only_the_downloaded_file_is_removed_witness :
  downloaded (Runs.large_bot Demo.always_ok) Demo.url Demo.q720 []
    Runs.small_file "Clip" video (120 * MiB)
    (Runs.handed_over (Runs.large_bot Demo.always_ok))
  /\ ((removals (log (Runs.large_run Demo.always_ok)) = []
       /\ fs (Runs.large_run Demo.always_ok)
          = fs (Runs.handed_over (Runs.large_bot Demo.always_ok)))
      \/ (removals (log (Runs.large_run Demo.always_ok)) = [Runs.small_file]
          /\ last (log (Runs.large_run Demo.always_ok)) = Some (Remove Runs.small_file)
          /\ (1 <= uploads (log (Runs.large_run Demo.always_ok)))%nat
          /\ getsize_in Runs.small_file (fs (Runs.large_run Demo.always_ok)) = None
          /\ forall p, p <> Runs.small_file ->
               getsize_in p (fs (Runs.large_run Demo.always_ok))
               = getsize_in p (fs (Runs.handed_over (Runs.large_bot Demo.always_ok))))).
Proof.
  split; [apply large_download|].
  exact (only_the_downloaded_file_is_removed _ Demo.data720 _ _ _ _ _ _ _ _
           (large_download Demo.always_ok)).
Defined.

(** X14, on a reel of 10 MiB that Telegram rejects. *)
Lemma instagram_file_removed_only_when_delivered_witness :
  instagram_downloaded (Runs.reel_bot (10 * MiB) Demo.always_rejects) Demo.reel []
    Runs.reel_file "Reel" video (10 * MiB)
    (Runs.reel_handed_over (Runs.reel_bot (10 * MiB) Demo.always_rejects))
  /\ removals
       (log (snd (process_instagram_download
                    (Runs.reel_bot (10 * MiB) Demo.always_rejects) Demo.reel (fresh []))))
     = [].
Proof.
  split; [apply reel_download|].
  exact (proj1 (instagram_file_removed_only_when_delivered _ _ _ _ _ _ _ _
                  (reel_download (10 * MiB) Demo.always_rejects))).
Defined.

(** X15, on the data of a button without a URL. *)
Lemma malformed_button_data_starts_nothing_witness :
  Py.contains "_" "720" = false
  /\ statuses
       (log (snd (button_callback (Runs.small_bot Demo.always_ok) "yt_720" (fresh []))))
     = ["❌ Error: Invalid button data"].
Proof.
  split; [reflexivity|].
  change "yt_720" with ("yt_" +:+ "720").
  rewrite (proj2 (proj2 (malformed_button_data_starts_nothing
                           (Runs.small_bot Demo.always_ok) (fresh []))
                    "720" eq_refl)).
  reflexivity.
Defined.

(** X16, on the key 720 and a URL with underscores. *)
Lemma callback_data_round_trip_witness :
  Py.contains "_" "720" = false
  /\ Py.splitn "_" 2 "yt_720_https://youtu.be/a_b_c" = ["yt"; "720"; "https://youtu.be/a_b_c"].
Proof.
  split; [reflexivity|].
  exact (proj1 (proj2 (callback_data_round_trip "720" "https://youtu.be/a_b_c" eq_refl))).
Defined.

(** X17, on a link to youtu.be. *)
Lemma offered_buttons_resolve_witness :
  Samples.host_of Demo.url = Ok "youtu.be"
  /\ In "youtu.be" youtube_hosts
  /\ fst (handle_url (Runs.small_bot Demo.always_ok) Samples.host_of Demo.url (fresh []))
     = Val (quality_keyboard Demo.url).
Proof.
  assert (Hin : In "youtu.be" youtube_hosts) by (right; right; left; reflexivity).
  split; [reflexivity|]. split; [exact Hin|].
  rewrite (proj1 (offered_buttons_resolve (Runs.small_bot Demo.always_ok)
                    Samples.host_of Demo.url (fresh []) "youtu.be"
                    eq_refl eq_refl Hin)).
  reflexivity.
Defined.

(** X19, on a cookie file without quotes. *)
Lemma deployed_cookies_match_iff_plain_witness :
  Samples.cookie_file <> EmptyString
  /\ plain Samples.cookie_file = true
  /\ setup_cookies_from_env (Runs.small_bot Demo.always_ok) Samples.deployed
       (fun _ => true) ∅
     !! "/app/youtube.com_cookies.txt"
     = Some Samples.cookie_file.
Proof.
  assert (Hne : Samples.cookie_file <> EmptyString) by discriminate.
  split; [exact Hne|]. split; [reflexivity|].
  apply (proj1 (deployed_cookies_match_iff_plain (Runs.small_bot Demo.always_ok)
                  Samples.deployed (fun _ => true) ∅ Samples.cookie_file Hne)
           eq_refl (lookup_empty _) eq_refl).
  reflexivity.
Defined.
